(** * UnicornSpider: overview extraction with a three-tier fallback

    A shallow embedding of [handler/spiders/unicorn_.py].

    Python [str] values are modelled by [string].  URLs and HTML arrive
    UTF-8 encoded; every byte of a multi-byte sequence lies outside
    [0-9a-zA-Z_-], and the pattern of [re.sub] replaces whole runs, so
    sanitising byte-wise or code-point-wise gives the same slug.

    The spider's coroutine [parse] talks to a browser page, to the
    downloaded response and to the file system.  The outcome of each of
    these calls is supplied by an environment record [Env]; the calls
    themselves are recorded as a trace of [Event]s by a small
    writer-and-exception monad. *)

From Stdlib Require Import String Ascii List ZArith Bool Lia DecimalString.
From Stdlib Require DecimalPos DecimalZ.
Import ListNotations.
Open Scope string_scope.
Open Scope list_scope.

(** ** Python string primitives used by the spider *)

Module PyStr.

Definition code (c : ascii) : nat := nat_of_ascii c.

Definition between (lo hi : nat) (c : ascii) : bool :=
  (lo <=? code c)%nat && (code c <=? hi)%nat.

Definition is_digit (c : ascii) : bool := between 48 57 c.
Definition is_upper (c : ascii) : bool := between 65 90 c.
Definition is_lower (c : ascii) : bool := between 97 122 c.

(** [str.lower] on ASCII letters; other bytes are left alone. *)
Definition lower_char (c : ascii) : ascii :=
  if is_upper c then ascii_of_nat (code c + 32) else c.

Fixpoint lower (s : string) : string :=
  match s with
  | EmptyString => EmptyString
  | String c t => String (lower_char c) (lower t)
  end.

(** [s.startswith(p)] *)
Fixpoint startswith (s p : string) : bool :=
  match p, s with
  | EmptyString, _ => true
  | String _ _, EmptyString => false
  | String b p', String a s' => Ascii.eqb a b && startswith s' p'
  end.

(** [needle in hay] *)
Fixpoint contains (needle hay : string) : bool :=
  startswith hay needle ||
  match hay with
  | EmptyString => false
  | String _ t => contains needle t
  end.

(** [s.endswith(suf)] *)
Fixpoint endswith (s suf : string) : bool :=
  String.eqb s suf ||
  match s with
  | EmptyString => false
  | String _ t => endswith t suf
  end.

(** [s.split(sep)] for a one-character separator: never the empty list. *)
Fixpoint split (sep : ascii) (s : string) : list string :=
  match s with
  | EmptyString => [EmptyString]
  | String c t =>
      if Ascii.eqb c sep then EmptyString :: split sep t
      else match split sep t with
           | [] => [String c EmptyString]
           | seg :: segs => String c seg :: segs
           end
  end.

Definition nonempty (s : string) : bool :=
  match s with EmptyString => false | String _ _ => true end.

(** [s.lstrip(c)] and [s.rstrip(c)] for a one-character set. *)
Fixpoint lstrip (c : ascii) (s : string) : string :=
  match s with
  | EmptyString => EmptyString
  | String a t => if Ascii.eqb a c then lstrip c t else s
  end.

Fixpoint rstrip (c : ascii) (s : string) : string :=
  match s with
  | EmptyString => EmptyString
  | String a t =>
      match rstrip c t with
      | EmptyString => if Ascii.eqb a c then EmptyString
                       else String a EmptyString
      | t' => String a t'
      end
  end.

Definition strip (c : ascii) (s : string) : string := rstrip c (lstrip c s).

(** [xs[-1]] on a list, when there is one. *)
Fixpoint last_opt {A : Type} (xs : list A) : option A :=
  match xs with
  | [] => None
  | [x] => Some x
  | _ :: t => last_opt t
  end.

(** All characters of a string satisfy a test. *)
Fixpoint all_chars (p : ascii -> bool) (s : string) : bool :=
  match s with
  | EmptyString => true
  | String c t => p c && all_chars p t
  end.

(** [str(n)] for an integer. *)
Definition str_of_int (n : Z) : string := NilZero.string_of_int (Z.to_int n).

End PyStr.

(** ** The filename of the output file *)

(** The character class of the pattern on line 51, un-negated. *)
Definition allowed (c : ascii) : bool :=
  PyStr.is_digit c || PyStr.is_lower c || PyStr.is_upper c
  || Ascii.eqb c "_" || Ascii.eqb c "-".

(** [re.sub(r"[^0-9a-zA-Z_\-]+", "_", s)]: every maximal run of characters
    outside the class becomes one underscore.  [in_run] tells that the
    underscore of the current run has been emitted already. *)
Fixpoint re_sub_from (in_run : bool) (s : string) : string :=
  match s with
  | EmptyString => EmptyString
  | String c t =>
      if allowed c then String c (re_sub_from false t)
      else if in_run then re_sub_from true t
      else String "_" (re_sub_from true t)
  end.

Definition re_sub (s : string) : string := re_sub_from false s.

(** [os.path.join(a, b)] on POSIX, for two components. *)
Definition os_path_join (a b : string) : string :=
  if PyStr.startswith b "/" then b
  else if negb (PyStr.nonempty a) || PyStr.endswith a "/" then a ++ b
  else a ++ "/" ++ b.

Section Filename.

(** [urlparse(url).path] belongs to the Python standard library; the
    spider only splits its result.  Scrapy has already parsed every URL
    it hands to a callback, so the function is taken to be total. *)
Variable urlparse_path : string -> string.

(** Line 48. *)
Definition segments (url : string) : list string :=
  filter PyStr.nonempty (PyStr.split "/" (urlparse_path url)).

(** Line 49. *)
Definition slug (url : string) : string :=
  match PyStr.last_opt (segments url) with
  | Some seg => seg
  | None => "product"
  end.

(** Line 51. *)
Definition sanitize (s : string) : string := PyStr.strip "_" (re_sub s).

(** Lines 51-53: the value of [safe] when the name is assembled. *)
Definition safe (url : string) : string :=
  let safe := sanitize (slug url) in
  if negb (PyStr.nonempty safe) then "product" else safe.

(** Lines 44-55; [ts] is the value of [int(time.time())]. *)
Definition _make_safe_filename (ts : Z) (url : string) : string :=
  safe url ++ "_" ++ PyStr.str_of_int ts ++ ".html".

End Filename.

(** A reading of [urlparse(url).path] for plain [scheme://host/path?query#frag]
    URLs, used to run the model on concrete addresses. *)
Module PlainUrl.

Fixpoint take_until (stop : ascii -> bool) (s : string) : string :=
  match s with
  | EmptyString => EmptyString
  | String c t => if stop c then EmptyString else String c (take_until stop t)
  end.

Fixpoint drop_until (stop : ascii -> bool) (s : string) : string :=
  match s with
  | EmptyString => EmptyString
  | String c t => if stop c then s else drop_until stop t
  end.

Fixpoint after_scheme (s : string) : string :=
  match s with
  | EmptyString => EmptyString
  | String c t => if PyStr.startswith s "://" then
                    match t with String _ (String _ r) => r | _ => EmptyString end
                  else after_scheme t
  end.

Definition is_slash (c : ascii) : bool := Ascii.eqb c "/".
Definition ends_path (c : ascii) : bool := Ascii.eqb c "?" || Ascii.eqb c "#".
Definition ends_host (c : ascii) : bool := is_slash c || ends_path c.

Definition path (url : string) : string :=
  take_until ends_path (drop_until ends_host (after_scheme url)).

End PlainUrl.

(** ** Effects: a trace of calls, and exceptions *)

Inductive result (A : Type) : Type :=
| Ok (a : A)
| Raise (msg : string).
Arguments Ok {A} a.
Arguments Raise {A} msg.

Inductive Level : Type := INFO | WARNING.

(** The calls [parse] makes on the page, the response, the logger and the
    file system. *)
Inductive Event : Type :=
| PageOn (event : string)
| PageOff (event : string)
| PageClose
| Click (selector : string) (timeout : Z)
| WaitForTimeout (ms : Z)
| ExpectResponse
| AwaitExpected
| ReadText (url : option string)
| CssGet (selector : string)
| Log (lvl : Level) (msg : string)
| Makedirs (dir : string)
| WriteFile (path content : string).

(** A computation lists the calls it made and returns or raises. *)
Definition M (A : Type) : Type := (list Event * result A)%type.

Definition trace {A} (m : M A) : list Event := fst m.
Definition outcome {A} (m : M A) : result A := snd m.

Definition ret {A} (a : A) : M A := ([], Ok a).

Definition bind {A B} (m : M A) (f : A -> M B) : M B :=
  match m with
  | (w, Ok a) => let (w', r) := f a in (w ++ w', r)
  | (w, Raise msg) => (w, Raise msg)
  end.

(** [raise Exception(msg)], and a failure of the interpreter itself. *)
Definition raise {A} (msg : string) : M A := ([], Raise msg).

(** A call whose result the environment decides. *)
Definition call {A} (ev : Event) (res : result A) : M A := ([ev], res).

Definition emit (ev : Event) : M unit := call ev (Ok tt).

Definition log (lvl : Level) (msg : string) : M unit := emit (Log lvl msg).

(** [try: m except Exception as err: h err] *)
Definition try_except {A} (m : M A) (h : string -> M A) : M A :=
  match m with
  | (w, Raise msg) => let (w', r) := h msg in (w ++ w', r)
  | done => done
  end.

(** [try: m finally: f]; the clean-up runs on both exits, and an exception
    of its own would replace the pending one. *)
Definition try_finally {A} (m : M A) (f : M unit) : M A :=
  match m, f with
  | (w, r), (w', Ok _) => (w ++ w', r)
  | (w, _), (w', Raise msg) => (w ++ w', Raise msg)
  end.

Definition pass : string -> M unit := fun _ => ret tt.

Declare Scope monad_scope.
Delimit Scope monad_scope with monad.
Notation "x <- m ;; k" := (bind m (fun x => k))
  (at level 61, m at next level, right associativity) : monad_scope.
Notation "m ;; k" := (bind m (fun _ => k))
  (at level 61, right associativity) : monad_scope.
Open Scope monad_scope.

(** ** What the spider sees of the outside world *)

(** A network response as the listener uses it. *)
Record Response : Type := {
  resp_url : option string;
  resp_headers : list (string * string);
  resp_text : result string
}.

(** One invocation of [parse]: what the calls on the page and on the
    Scrapy response answer.  The selector queries, creating the directory
    and writing the file are taken to succeed; what the fixed delay of
    line 89 answers is an argument of [network_tier_at]. *)
Record Env : Type := {
  page : bool;                       (* line 58: the page object is truthy *)
  click_text : result unit;          (* line 80 *)
  click_span : result unit;          (* line 84 *)
  arrived : list Response;           (* delivered to the listener before line 91 *)
  has_expect_response : bool;        (* line 102 *)
  click_text_again : result unit;    (* line 111 *)
  arrived_late : list Response;      (* delivered while line 108 waits *)
  page_off : result unit;            (* line 123 *)
  page_close : result unit;          (* line 127 *)
  css_get : string -> option string; (* line 141: response.css(sel).get() *)
  response_text : string;            (* line 150 *)
  response_url : string;             (* line 156 *)
  clock : Z                          (* line 54: int(time.time()) *)
}.

(** Python truthiness of a value that is [None] or a [str]. *)
Definition truthy (v : option string) : bool :=
  match v with
  | Some s => PyStr.nonempty s
  | None => false
  end.

(** [v or ""] *)
Definition or_empty (v : option string) : string :=
  match v with
  | Some s => s
  | None => ""
  end.

(** How an f-string prints a value that is [None] or a [str]. *)
Definition fmt (v : option string) : string :=
  match v with
  | Some s => s
  | None => "None"
  end.

(** [d.get(k)] on a dictionary kept as an association list. *)
Fixpoint dict_get (k : string) (d : list (string * string)) : option string :=
  match d with
  | [] => None
  | (k', v) :: rest => if String.eqb k k' then Some v else dict_get k rest
  end.

(** The test of lines 67-69. *)
Definition is_candidate (resp : Response) : bool :=
  let url_lower := PyStr.lower (or_empty (resp_url resp)) in
  let ct := PyStr.lower (or_empty (dict_get "content-type" (resp_headers resp))) in
  PyStr.contains "overview" url_lower
  || PyStr.endswith url_lower ".html"
  || PyStr.contains "text/html" ct.

(** Lines 65-73: the listener appends to the shared list. *)
Definition on_response (matching_resps : list Response) (resp : Response)
  : M (list Response) :=
  if is_candidate resp then
    log INFO ("[listener] candidate response captured: " ++ fmt (resp_url resp)) ;;
    ret (matching_resps ++ [resp])
  else ret matching_resps.

(** The listener is called once per response, in order of arrival. *)
Fixpoint deliver (rs : list Response) (matching_resps : list Response)
  : M (list Response) :=
  match rs with
  | [] => ret matching_resps
  | r :: rs' => m <- on_response matching_resps r ;; deliver rs' m
  end.

(** The predicate of lines 103-107. *)
Definition predicate (r : Response) : bool :=
  PyStr.contains "overview" (PyStr.lower (or_empty (resp_url r)))
  || PyStr.endswith (PyStr.lower (or_empty (resp_url r))) ".html"
  || PyStr.contains "text/html"
       (PyStr.lower (or_empty (dict_get "content-type" (resp_headers r)))).

(** What leaving the [async with] block of line 108 waits for: the first
    response that satisfies the predicate, or a timeout. *)
Definition expect_response (late : list Response) : result Response :=
  match find predicate late with
  | Some r => Ok r
  | None => Raise "TimeoutError"
  end.

Definition sel_text : string := "text=Overview".
Definition sel_span : string := "span.p-tabview-title:has-text('Overview')".

(** Lines 133-139. *)
Definition selectors_to_try : list string :=
  [ "div.p-tabview-panels div.p-tabview-panel.p-tabview-panel-active";
    "div.p-tabview-panels";
    "section#overview";
    "div.overview";
    "div#overview" ].

Definition full_page_warning : string :=
  "Overview not found by network or DOM selectors; falling back to full page HTML.".

(** ** The requests the spider starts from *)




Section Requests.

(** What [scrapy.Request] makes of the URL it is given: the URL it stores,
    which it has escaped, or the [ValueError] it raises for a URL it
    refuses, such as one without a scheme.  The class belongs to Scrapy. *)
Variable request_url : string -> result string.



End Requests.

(** ** The callback [parse] *)

(** Lines 78-87: try the text selector, then the tab title; tell whether
    one of the clicks went through. *)
Definition click_overview (e : Env) : M bool :=
  try_except
    (call (Click sel_text 3000) (click_text e) ;; ret true)
    (fun _ =>
       try_except
         (call (Click sel_span 3000) (click_span e) ;; ret true)
         (fun _ =>
            log INFO "Could not click Overview using selectors; continuing." ;;
            ret false)).

(** Lines 91-97: read the most recent candidate, if there is one. *)
Definition read_last (matching_resps : list Response) (overview_html : option string)
  : M (option string) :=
  match PyStr.last_opt matching_resps with
  | Some resp_obj =>
      try_except
        (t <- call (ReadText (resp_url resp_obj)) (resp_text resp_obj) ;;
         log INFO ("Captured overview HTML from response: " ++ fmt (resp_url resp_obj)) ;;
         ret (Some t))
        (fun err =>
           log WARNING ("Failed to read resp.text(): " ++ err) ;;
           ret overview_html)
  | None => ret overview_html
  end.

(** Line 115 on the value of line 114.  The page is Playwright's
    asynchronous one, whose context manager gives its value as a coroutine;
    line 114 does not await it, so the attribute lookup of line 115 raises
    before any call is made. *)
Definition coroutine_text : M string :=
  raise "'coroutine' object has no attribute 'text'".

(** Lines 100-119: wait for one more matching response.  The listener of
    line 75 is still registered and sees the late responses too.  Leaving
    the [async with] block waits for the response or times out.  Whatever
    is raised here leaves [overview_html] as it was. *)
Definition expect_tier (e : Env) (clicked : bool)
           (matching_resps : list Response) (overview_html : option string)
  : M (option string) :=
  try_except
    (if has_expect_response e then
       emit ExpectResponse ;;
       (if negb clicked then
          try_except (call (Click sel_text 3000) (click_text_again e)) pass
        else ret tt) ;;
       _ <- deliver (arrived_late e) matching_resps ;;
       awaited <- call AwaitExpected (expect_response (arrived_late e)) ;;
       t <- coroutine_text ;;
       log INFO ("[expect_response] captured overview HTML from " ++ fmt (resp_url awaited)) ;;
       ret (Some t)
     else ret overview_html)
    (fun _ => ret overview_html).

(** Lines 121-129. *)
Definition cleanup (e : Env) : M unit :=
  try_except (call (PageOff "response") (page_off e)) pass ;;
  try_except (call PageClose (page_close e)) pass.

(** Lines 62-129: the value of [overview_html] after the network tier.
    [delay] is what [page.wait_for_timeout(1400)] on line 89 answers; the
    [try] around it has a [finally] and no [except], so an exception raised
    there leaves the tier after the clean-up. *)
Definition network_tier_at (delay : result unit) (e : Env) : M (option string) :=
  let overview_html : option string := None in
  if page e then
    emit (PageOn "response") ;;
    try_finally
      (clicked <- click_overview e ;;
       call (WaitForTimeout 1400) delay ;;
       matching_resps <- deliver (arrived e) [] ;;
       overview_html <- read_last matching_resps overview_html ;;
       if negb (truthy overview_html) then
         expect_tier e clicked matching_resps overview_html
       else ret overview_html)
      (cleanup e)
  else ret overview_html.

(** The network tier of a run in which the delay of line 89 returns. *)
Definition network_tier (e : Env) : M (option string) :=
  network_tier_at (Ok tt) e.

(** Lines 140-144: the loop over the selectors, with its [break]. *)
Fixpoint dom_loop (e : Env) (sels : list string) (overview_html : option string)
  : M (option string) :=
  match sels with
  | [] => ret overview_html
  | sel :: rest =>
      overview_html <- call (CssGet sel) (Ok (css_get e sel)) ;;
      if truthy overview_html then
        log INFO ("Found overview in DOM using selector: " ++ sel) ;;
        ret overview_html
      else dom_loop e rest overview_html
  end.

(** Lines 131-144. *)
Definition dom_tier (e : Env) (overview_html : option string) : M (option string) :=
  if negb (truthy overview_html) then dom_loop e selectors_to_try overview_html
  else ret overview_html.

(** Lines 146-150. *)
Definition full_page_tier (e : Env) (overview_html : option string)
  : M (option string) :=
  if negb (truthy overview_html) then
    log WARNING full_page_warning ;;
    ret (Some (response_text e))
  else ret overview_html.

(** The item yielded on line 163, a one-entry dictionary. *)
Definition Item : Type := list (string * string).

Section Parse.

Variable urlparse_path : string -> string.

(** Lines 152-163. *)
Definition save (e : Env) (overview_html : option string) : M (list Item) :=
  let out_dir := "overview" in
  emit (Makedirs out_dir) ;;
  let filename := _make_safe_filename urlparse_path (clock e) (response_url e) in
  let filepath := os_path_join out_dir filename in
  emit (WriteFile filepath (or_empty overview_html)) ;;
  log INFO ("Saved overview HTML to " ++ filepath) ;;
  ret [[("file", filepath)]].

(** Lines 57-163; the result lists what the generator yields. *)
Definition parse_at (delay : result unit) (e : Env) : M (list Item) :=
  overview_html <- network_tier_at delay e ;;
  overview_html <- dom_tier e overview_html ;;
  overview_html <- full_page_tier e overview_html ;;
  save e overview_html.

(** [parse] in a run in which the delay of line 89 returns. *)
Definition parse (e : Env) : M (list Item) := parse_at (Ok tt) e.



End Parse.

(** ** Reading a trace *)

Definition count (p : Event -> bool) (w : list Event) : nat :=
  length (filter p w).

(** The files written, in order: path and content. *)
Fixpoint writes (w : list Event) : list (string * string) :=
  match w with
  | [] => []
  | WriteFile path content :: rest => (path, content) :: writes rest
  | _ :: rest => writes rest
  end.

(** The selectors queried on the DOM, in order. *)
Fixpoint css_queries (w : list Event) : list string :=
  match w with
  | [] => []
  | CssGet sel :: rest => sel :: css_queries rest
  | _ :: rest => css_queries rest
  end.

Definition is_click (sel : string) (ev : Event) : bool :=
  match ev with Click s _ => String.eqb s sel | _ => false end.

Definition is_read (ev : Event) : bool :=
  match ev with ReadText _ => true | _ => false end.

Definition is_expect (ev : Event) : bool :=
  match ev with ExpectResponse => true | _ => false end.


Definition is_page_on (ev : Event) : bool :=
  match ev with PageOn _ => true | _ => false end.

Definition is_full_page (ev : Event) : bool :=
  match ev with Log WARNING msg => String.eqb msg full_page_warning | _ => false end.


(** The value [overview_html] has when the network tier is left. *)
Definition network_capture (e : Env) : option string :=
  match outcome (network_tier e) with
  | Ok overview_html => overview_html
  | Raise _ => None
  end.

(** The first selector of a list whose query gives a truthy result. *)
Definition first_match (e : Env) (sels : list string) : option string :=
  find (fun sel => truthy (css_get e sel)) sels.

(** The line the listener logs for a candidate. *)
Definition listener_log (resp : Response) : Event :=
  Log INFO ("[listener] candidate response captured: " ++ fmt (resp_url resp)).

(** ** Vocabulary of the statements *)

(** A classifier that rejects every informational log line. *)
Definition ignores_info (p : Event -> bool) : Prop :=
  forall msg, p (Log INFO msg) = false.

(** ** A budget of calls *)

(** How many calls of each kind a piece of the network tier may make.  Such
    a piece never touches the DOM, the file system or the full-page
    fallback. *)
Record Budget : Type := {
  b_text : nat;    (* clicks on [sel_text] *)
  b_span : nat;    (* clicks on [sel_span] *)
  b_read : nat;    (* reads of a response body *)
  b_expect : nat;  (* waits for one more response *)
  b_on : nat       (* listener registrations *)
}.

Definition budget_add (b1 b2 : Budget) : Budget :=
  {| b_text := b_text b1 + b_text b2;
     b_span := b_span b1 + b_span b2;
     b_read := b_read b1 + b_read b2;
     b_expect := b_expect b1 + b_expect b2;
     b_on := b_on b1 + b_on b2 |}.

Definition no_calls : Budget :=
  {| b_text := 0; b_span := 0; b_read := 0; b_expect := 0; b_on := 0 |}.

Record within (b : Budget) (w : list Event) : Prop := {
  in_writes : writes w = [];
  in_css : css_queries w = [];
  in_full : count is_full_page w = 0%nat;
  in_text : (count (is_click sel_text) w <= b_text b)%nat;
  in_span : (count (is_click sel_span) w <= b_span b)%nat;
  in_read : (count is_read w <= b_read b)%nat;
  in_expect : (count is_expect w <= b_expect b)%nat;
  in_on : (count is_page_on w <= b_on b)%nat
}.

(** A computation that returns, with a fact about its trace and value. *)
Definition returns {A : Type} (m : M A) (P : list Event -> A -> Prop) : Prop :=
  exists w a, m = (w, Ok a) /\ P w a.

(** What [read_last] leaves in [overview_html]. *)
Definition read_value (matching_resps : list Response) (overview_html : option string)
  : option string :=
  match PyStr.last_opt matching_resps with
  | Some resp_obj =>
      match resp_text resp_obj with
      | Ok t => Some t
      | Raise _ => overview_html
      end
  | None => overview_html
  end.

Definition network_budget : Budget :=
  {| b_text := 2; b_span := 1; b_read := 2; b_expect := 1; b_on := 1 |}.

(** What the DOM tier and the full-page tier do between them, and the
    content that reaches the file. *)
Inductive chain (e : Env) : list Event -> string -> Prop :=
| from_network (s : string) :
    network_capture e = Some s -> PyStr.nonempty s = true ->
    chain e [] s
| from_dom (pre post : list string) (sel h : string) :
    truthy (network_capture e) = false ->
    selectors_to_try = pre ++ sel :: post ->
    (forall s, In s pre -> truthy (css_get e s) = false) ->
    css_get e sel = Some h -> PyStr.nonempty h = true ->
    chain e (map CssGet pre
               ++ [CssGet sel; Log INFO ("Found overview in DOM using selector: " ++ sel)])
          h
| from_full_page :
    truthy (network_capture e) = false ->
    (forall s, In s selectors_to_try -> truthy (css_get e s) = false) ->
    chain e (map CssGet selectors_to_try ++ [Log WARNING full_page_warning])
          (response_text e).

Definition filepath (urlparse_path : string -> string) (e : Env) : string :=
  "overview/" ++ safe urlparse_path (response_url e) ++ "_"
    ++ PyStr.str_of_int (clock e) ++ ".html".

(** What the two later tiers add to a trace. *)
Record chain_trace (wc : list Event) : Prop := {
  ct_writes : writes wc = [];
  ct_prefix : exists post, selectors_to_try = css_queries wc ++ post;
  ct_full : (count is_full_page wc <= 1)%nat;
  ct_text : count (is_click sel_text) wc = 0%nat;
  ct_span : count (is_click sel_span) wc = 0%nat;
  ct_read : count is_read wc = 0%nat;
  ct_expect : count is_expect wc = 0%nat;
  ct_on : count is_page_on wc = 0%nat
}.

(** The content the priority order calls for: the network capture when it
    is a non-empty text, else the result of the first selector with a
    non-empty match, else the text of the rendered page. *)
Definition priority_content (e : Env) : string :=
  if truthy (network_capture e) then or_empty (network_capture e)
  else match first_match e selectors_to_try with
       | Some sel => or_empty (css_get e sel)
       | None => response_text e
       end.

(** ** Further vocabulary *)

(** The characters of a string that satisfy a test, in order. *)
Fixpoint filter_chars (p : ascii -> bool) (s : string) : string :=
  match s with
  | EmptyString => EmptyString
  | String c t => if p c then String c (filter_chars p t) else filter_chars p t
  end.

(** Letters, digits and the hyphen: the class of line 51 without the
    underscore. *)
Definition is_word (c : ascii) : bool :=
  PyStr.is_digit c || PyStr.is_lower c || PyStr.is_upper c || Ascii.eqb c "-".

(** The characters a filename can be made of. *)
Definition name_char (c : ascii) : bool := allowed c || Ascii.eqb c ".".

(** A run of [k] slashes. *)
Fixpoint slashes (k : nat) : string :=
  match k with
  | O => EmptyString
  | S k' => String "/" (slashes k')
  end.

Definition slash_free (s : string) : bool :=
  PyStr.all_chars (fun c => negb (Ascii.eqb c "/")) s.

(** Registering and removing the listener, and closing the page. *)
Definition is_lifecycle (ev : Event) : bool :=
  match ev with
  | PageOn _ | PageOff _ | PageClose => true
  | _ => false
  end.

(** Every call that goes to the browser page or to a network response. *)
Definition is_browser_call (ev : Event) : bool :=
  match ev with
  | PageOn _ | PageOff _ | PageClose | Click _ _ | WaitForTimeout _
  | ExpectResponse | AwaitExpected | ReadText _ => true
  | _ => false
  end.

(** The text the network tier reads from the last candidate, if any. *)
Definition listener_value (e : Env) : option string :=
  read_value (filter is_candidate (arrived e)) None.

(** The class [0-9a-zA-Z_-], written out. *)
Definition charset : string :=
  "0123456789abcdefghijklmnopqrstuvwxyzABCDEFGHIJKLMNOPQRSTUVWXYZ_-".

Definition in_charset (c : ascii) : bool :=
  existsb (Ascii.eqb c) (list_ascii_of_string charset).

(** ** Two runs *)

Module Runs.

Definition product_url : string :=
  "https://shop.unicornstore.in/product/iphone-15-black-128-gb".

Definition html_response (url : string) (body : result string) : Response :=
  {| resp_url := Some url;
     resp_headers := [("content-type", "text/HTML; charset=utf-8")];
     resp_text := body |}.

Definition json_response (url : string) : Response :=
  {| resp_url := Some url;
     resp_headers := [("content-type", "application/json")];
     resp_text := Ok "{}" |}.

Definition first_fragment : Response :=
  html_response "https://shop.unicornstore.in/fragment/specs" (Ok "<p>first</p>").

Definition last_fragment : Response :=
  html_response "https://shop.unicornstore.in/fragment/overview" (Ok "<p>last</p>").

Definition broken_fragment : Response :=
  html_response "https://shop.unicornstore.in/fragment/overview" (Raise "boom").

(** The tab title is clicked and two fragments arrive. *)
Definition captured : Env :=
  {| page := true;
     click_text := Raise "Timeout 3000ms exceeded";
     click_span := Ok tt;
     arrived := [first_fragment;
                 json_response "https://shop.unicornstore.in/api/cart";
                 last_fragment];
     has_expect_response := true;
     click_text_again := Ok tt;
     arrived_late := [];
     page_off := Ok tt;
     page_close := Ok tt;
     css_get := fun _ => None;
     response_text := "<html>full</html>";
     response_url := product_url;
     clock := 1700000000 |}.

(** Every guarded call fails; the fourth selector matches. *)
Definition degraded : Env :=
  {| page := true;
     click_text := Raise "Timeout 3000ms exceeded";
     click_span := Raise "Timeout 3000ms exceeded";
     arrived := [first_fragment; broken_fragment];
     has_expect_response := true;
     click_text_again := Raise "Timeout 3000ms exceeded";
     arrived_late := [json_response "https://shop.unicornstore.in/api/cart"];
     page_off := Raise "closed";
     page_close := Raise "closed";
     css_get := fun sel => if String.eqb sel "div.overview"
                           then Some "<div class=overview>" else None;
     response_text := "<html>full</html>";
     response_url := "https://shop.unicornstore.in/";
     clock := 1700000000 |}.

(** As [degraded], with no selector matching either. *)
Definition bare : Env :=
  {| page := page degraded;
     click_text := click_text degraded;
     click_span := click_span degraded;
     arrived := arrived degraded;
     has_expect_response := false;
     click_text_again := click_text_again degraded;
     arrived_late := [];
     page_off := page_off degraded;
     page_close := page_close degraded;
     css_get := fun _ => None;
     response_text := "<html>full</html>";
     response_url := response_url degraded;
     clock := clock degraded |}.

End Runs.

(** ** Three more runs *)

Module MoreRuns.

(** No page object comes with the response; the third selector matches. *)
Definition pageless : Env :=
  {| page := false;
     click_text := Ok tt;
     click_span := Ok tt;
     arrived := [];
     has_expect_response := true;
     click_text_again := Ok tt;
     arrived_late := [];
     page_off := Ok tt;
     page_close := Ok tt;
     css_get := fun sel => if String.eqb sel "section#overview"
                           then Some "<section id=overview>" else None;
     response_text := "<html>full</html>";
     response_url := Runs.product_url;
     clock := 1700000000 |}.

(** No page object, no selector matches and the page has no text. *)
Definition blank : Env :=
  {| page := false;
     click_text := Ok tt;
     click_span := Ok tt;
     arrived := [];
     has_expect_response := true;
     click_text_again := Ok tt;
     arrived_late := [];
     page_off := Ok tt;
     page_close := Ok tt;
     css_get := fun _ => None;
     response_text := "";
     response_url := Runs.product_url;
     clock := 1700000000 |}.

(** The first click goes through and a fragment arrives. *)
Definition direct : Env :=
  {| page := true;
     click_text := Ok tt;
     click_span := Raise "not reached";
     arrived := [Runs.last_fragment];
     has_expect_response := true;
     click_text_again := Ok tt;
     arrived_late := [];
     page_off := Ok tt;
     page_close := Ok tt;
     css_get := fun _ => None;
     response_text := "<html>full</html>";
     response_url := Runs.product_url;
     clock := 1700000000 |}.

(** No page object; the address ends in a slash and its last segment has
    characters outside the class. *)
Definition slashed : Env :=
  {| page := false;
     click_text := Ok tt;
     click_span := Ok tt;
     arrived := [];
     has_expect_response := true;
     click_text_again := Ok tt;
     arrived_late := [];
     page_off := Ok tt;
     page_close := Ok tt;
     css_get := fun _ => None;
     response_text := "<html>full</html>";
     response_url := "https://shop.unicornstore.in/product/iphone%2015 (black)//";
     clock := 1700000123 |}.

(** What a page that has gone away answers to the delay of line 89. *)
Definition page_gone : result unit :=
  Raise "Target page, context or browser has been closed".


End MoreRuns.

(** * Worked runs *)

Example split_ex : PyStr.split "/" "/product/iphone-15/" = [""; "product"; "iphone-15"; ""].
Proof. reflexivity. Qed.

Example path_ex :
  PlainUrl.path "https://shop.unicornstore.in/product/iphone-15-black-128-gb?x=1"
  = "/product/iphone-15-black-128-gb".
Proof. reflexivity. Qed.

Example filename_ex :
  _make_safe_filename PlainUrl.path 1700000000
    "https://shop.unicornstore.in/product/iphone 15 (black)/"
  = "iphone_15_black_1700000000.html".
Proof. reflexivity. Qed.

Example filename_default_ex :
  _make_safe_filename PlainUrl.path 5 "https://shop.unicornstore.in/" = "product_5.html"
  /\ _make_safe_filename PlainUrl.path 0 "https://shop.unicornstore.in/%%%" = "product_0.html".
Proof. split; reflexivity. Qed.

Example candidate_ex :
  map is_candidate (arrived Runs.captured) = [true; false; true].
Proof. reflexivity. Qed.

Example captured_run :
  parse PlainUrl.path Runs.captured
  = ([PageOn "response";
      Click sel_text 3000;
      Click sel_span 3000;
      WaitForTimeout 1400;
      listener_log Runs.first_fragment;
      listener_log Runs.last_fragment;
      ReadText (resp_url Runs.last_fragment);
      Log INFO "Captured overview HTML from response: https://shop.unicornstore.in/fragment/overview";
      PageOff "response";
      PageClose;
      Makedirs "overview";
      WriteFile "overview/iphone-15-black-128-gb_1700000000.html" "<p>last</p>";
      Log INFO "Saved overview HTML to overview/iphone-15-black-128-gb_1700000000.html"],
     Ok [[("file", "overview/iphone-15-black-128-gb_1700000000.html")]]).
Proof. reflexivity. Qed.

Example degraded_run :
  parse PlainUrl.path Runs.degraded
  = ([PageOn "response";
      Click sel_text 3000;
      Click sel_span 3000;
      Log INFO "Could not click Overview using selectors; continuing.";
      WaitForTimeout 1400;
      listener_log Runs.first_fragment;
      listener_log Runs.broken_fragment;
      ReadText (resp_url Runs.broken_fragment);
      Log WARNING "Failed to read resp.text(): boom";
      ExpectResponse;
      Click sel_text 3000;
      AwaitExpected;
      PageOff "response";
      PageClose;
      CssGet "div.p-tabview-panels div.p-tabview-panel.p-tabview-panel-active";
      CssGet "div.p-tabview-panels";
      CssGet "section#overview";
      CssGet "div.overview";
      Log INFO "Found overview in DOM using selector: div.overview";
      Makedirs "overview";
      WriteFile "overview/product_1700000000.html" "<div class=overview>";
      Log INFO "Saved overview HTML to overview/product_1700000000.html"],
     Ok [[("file", "overview/product_1700000000.html")]]).
Proof. reflexivity. Qed.

Example bare_run :
  writes (trace (parse PlainUrl.path Runs.bare))
  = [("overview/product_1700000000.html", "<html>full</html>")]
  /\ count is_full_page (trace (parse PlainUrl.path Runs.bare)) = 1%nat.
Proof. split; reflexivity. Qed.
(** * Properties of the filename *)

Lemma allowed_underscore : allowed "_" = true.
Proof. reflexivity. Qed.

Lemma re_sub_from_allowed (s : string) :
  forall in_run, PyStr.all_chars allowed (re_sub_from in_run s) = true.
Proof.
  induction s as [|c t IH]; intros in_run; simpl; [reflexivity|].
  destruct (allowed c) eqn:Hc.
  - simpl. now rewrite Hc, IH.
  - destruct in_run; [apply IH|].
    change (allowed "_" && PyStr.all_chars allowed (re_sub_from true t) = true).
    now rewrite allowed_underscore, IH.
Qed.

Lemma lstrip_all_chars (p : ascii -> bool) (c : ascii) (s : string) :
  PyStr.all_chars p s = true -> PyStr.all_chars p (PyStr.lstrip c s) = true.
Proof.
  induction s as [|a t IH]; simpl; [easy|].
  intros H. apply andb_prop in H as [Ha Ht].
  destruct (Ascii.eqb a c); [now apply IH|].
  simpl. now rewrite Ha, Ht.
Qed.

Lemma rstrip_all_chars (p : ascii -> bool) (c : ascii) (s : string) :
  PyStr.all_chars p s = true -> PyStr.all_chars p (PyStr.rstrip c s) = true.
Proof.
  induction s as [|a t IH]; simpl; [easy|].
  intros H. apply andb_prop in H as [Ha Ht].
  specialize (IH Ht).
  destruct (PyStr.rstrip c t) as [|b u] eqn:E.
  - destruct (Ascii.eqb a c); simpl; [reflexivity|now rewrite Ha].
  - change (p a && PyStr.all_chars p (String b u) = true).
    now rewrite Ha, IH.
Qed.

Lemma strip_all_chars (p : ascii -> bool) (c : ascii) (s : string) :
  PyStr.all_chars p s = true -> PyStr.all_chars p (PyStr.strip c s) = true.
Proof.
  intros H. unfold PyStr.strip.
  now apply rstrip_all_chars, lstrip_all_chars.
Qed.

Lemma sanitize_allowed (s : string) :
  PyStr.all_chars allowed (sanitize s) = true.
Proof. unfold sanitize. apply strip_all_chars, re_sub_from_allowed. Qed.

Lemma safe_allowed (urlparse_path : string -> string) (url : string) :
  PyStr.all_chars allowed (safe urlparse_path url) = true.
Proof.
  unfold safe.
  destruct (PyStr.nonempty (sanitize (slug urlparse_path url))); simpl.
  - apply sanitize_allowed.
  - reflexivity.
Qed.

Lemma safe_nonempty (urlparse_path : string -> string) (url : string) :
  PyStr.nonempty (safe urlparse_path url) = true.
Proof.
  unfold safe.
  destruct (PyStr.nonempty (sanitize (slug urlparse_path url))) eqn:E; simpl.
  - exact E.
  - reflexivity.
Qed.

(** The name never begins with a slash, so joining it to the directory keeps
    the directory. *)
Lemma filepath_in_overview (urlparse_path : string -> string) (ts : Z) (url : string) :
  os_path_join "overview" (_make_safe_filename urlparse_path ts url)
  = ("overview/" ++ _make_safe_filename urlparse_path ts url)%string.
Proof.
  unfold _make_safe_filename.
  pose proof (safe_allowed urlparse_path url) as Ha.
  pose proof (safe_nonempty urlparse_path url) as Hn.
  destruct (safe urlparse_path url) as [|c t]; [discriminate|].
  simpl in Ha. apply andb_prop in Ha as [Hc _].
  unfold os_path_join.
  assert (PyStr.startswith (String c t ++ "_" ++ PyStr.str_of_int ts ++ ".html")%string "/"
          = false)
    as ->.
  { simpl. destruct (Ascii.eqb c "/") eqn:E; [|reflexivity].
    apply Ascii.eqb_eq in E. subst c. discriminate. }
  reflexivity.
Qed.

Lemma allowed_charset (c : ascii) : allowed c = in_charset c.
Proof. destruct c as [[] [] [] [] [] [] [] []]; vm_compute; reflexivity. Qed.

(** C2: whatever the URL, the slug that line 51 produces (substitution of
    the disallowed runs by an underscore, then stripping of the outer
    underscores) consists of characters of [0-9a-zA-Z_-] only, and so does
    the name component that goes into the filename. *)
Theorem sanitized_slug_charset (urlparse_path : string -> string) (url : string) :
  PyStr.all_chars in_charset (sanitize (slug urlparse_path url)) = true
  /\ PyStr.all_chars in_charset (safe urlparse_path url) = true.
Proof.
  assert (forall s, PyStr.all_chars allowed s = true ->
                    PyStr.all_chars in_charset s = true) as Hcs.
  { induction s as [|c t IH]; simpl; [easy|].
    rewrite allowed_charset. intros H. apply andb_prop in H as [-> Ht].
    now rewrite IH. }
  split; apply Hcs; [apply sanitize_allowed | apply safe_allowed].
Qed.

(** C7: when the path has no non-empty segment, and when sanitising the
    last segment leaves nothing, the name component is the default
    "product"; the filename begins with that component, which is never
    empty. *)
Theorem default_slug_nonempty (urlparse_path : string -> string) (ts : Z) (url : string) :
  (segments urlparse_path url = [] -> safe urlparse_path url = "product")
  /\ (sanitize (slug urlparse_path url) = "" -> safe urlparse_path url = "product")
  /\ safe urlparse_path url <> ""
  /\ _make_safe_filename urlparse_path ts url
     = (safe urlparse_path url ++ "_" ++ PyStr.str_of_int ts ++ ".html")%string.
Proof.
  repeat split.
  - intros Hseg. unfold safe, slug. rewrite Hseg. reflexivity.
  - intros Hs. unfold safe. rewrite Hs. reflexivity.
  - intros Hempty. pose proof (safe_nonempty urlparse_path url) as Hn.
    rewrite Hempty in Hn. discriminate.
Qed.

(** * Properties of the callback *)

(** ** Counting in traces *)

Lemma count_nil (p : Event -> bool) : count p [] = 0%nat.
Proof. reflexivity. Qed.

Lemma count_cons (p : Event -> bool) (ev : Event) (w : list Event) :
  count p (ev :: w) = ((if p ev then 1 else 0) + count p w)%nat.
Proof. unfold count. simpl. now destruct (p ev). Qed.

Lemma count_app (p : Event -> bool) (w1 w2 : list Event) :
  count p (w1 ++ w2) = (count p w1 + count p w2)%nat.
Proof. unfold count. now rewrite filter_app, length_app. Qed.

Lemma writes_app (w1 w2 : list Event) : writes (w1 ++ w2) = writes w1 ++ writes w2.
Proof.
  induction w1 as [|ev w IH]; [reflexivity|].
  destruct ev; simpl; now rewrite ?IH.
Qed.

Lemma css_queries_app (w1 w2 : list Event) :
  css_queries (w1 ++ w2) = css_queries w1 ++ css_queries w2.
Proof.
  induction w1 as [|ev w IH]; [reflexivity|].
  destruct ev; simpl; now rewrite ?IH.
Qed.

Lemma count_listener (p : Event -> bool) (rs : list Response) :
  ignores_info p -> count p (map listener_log rs) = 0%nat.
Proof.
  intros Hp. induction rs as [|r rs IH]; [reflexivity|].
  simpl. rewrite count_cons, IH. unfold listener_log. now rewrite Hp.
Qed.

Lemma writes_listener (rs : list Response) : writes (map listener_log rs) = [].
Proof. induction rs; simpl; auto. Qed.

Lemma css_queries_listener (rs : list Response) : css_queries (map listener_log rs) = [].
Proof. induction rs; simpl; auto. Qed.

(** ** The listener *)

(** Delivering responses appends the candidates among them, in order, and
    logs one line for each. *)
Lemma deliver_eq (rs : list Response) :
  forall matching_resps,
    deliver rs matching_resps
    = (map listener_log (filter is_candidate rs),
       Ok (matching_resps ++ filter is_candidate rs)).
Proof.
  induction rs as [|r rs IH]; intros m; simpl.
  - now rewrite app_nil_r.
  - unfold on_response. destruct (is_candidate r); simpl.
    + rewrite IH. simpl. now rewrite <- app_assoc.
    + rewrite IH. reflexivity.
Qed.

Lemma predicate_is_candidate (r : Response) : predicate r = is_candidate r.
Proof. reflexivity. Qed.

Lemma last_opt_snoc {A : Type} (xs : list A) (x : A) : PyStr.last_opt (xs ++ [x]) = Some x.
Proof.
  induction xs as [|y ys IH]; [reflexivity|].
  simpl. rewrite IH. destruct (ys ++ [x]) eqn:E; [|reflexivity].
  now destruct ys.
Qed.

(** ** Budgets *)

(** Traces built from literal events around at most one block of listener
    lines, whose budget is the hypothesis [Hl]. *)
Ltac trace_around Hl :=
  destruct Hl; constructor;
  repeat (cbn [writes css_queries app]; rewrite ?writes_app, ?css_queries_app);
  repeat match goal with H : _ = [] |- _ => rewrite H end;
  repeat (rewrite count_cons || rewrite count_app || rewrite count_nil);
  cbn - [count] in *; auto; lia.

Ltac small_trace := constructor; cbn; auto; lia.

Lemma within_app (b1 b2 : Budget) (w1 w2 : list Event) :
  within b1 w1 -> within b2 w2 -> within (budget_add b1 b2) (w1 ++ w2).
Proof.
  intros [] []. constructor; rewrite ?writes_app, ?css_queries_app, ?count_app; simpl;
    try lia; now (repeat match goal with H : _ = [] |- _ => rewrite H end).
Qed.

Lemma within_weaken (b b' : Budget) (w : list Event) :
  within b w ->
  (b_text b <= b_text b')%nat -> (b_span b <= b_span b')%nat ->
  (b_read b <= b_read b')%nat -> (b_expect b <= b_expect b')%nat ->
  (b_on b <= b_on b')%nat ->
  within b' w.
Proof. intros [] ? ? ? ? ?. constructor; auto; lia. Qed.

Lemma within_listener (rs : list Response) : within no_calls (map listener_log rs).
Proof.
  constructor; rewrite ?writes_listener, ?css_queries_listener; auto;
    rewrite count_listener; simpl; auto; intros msg; reflexivity.
Qed.

Lemma bind_returns {A B : Type} (m : M A) (f : A -> M B) (w1 w2 : list Event) (a : A) (b : B) :
  m = (w1, Ok a) -> f a = (w2, Ok b) -> bind m f = (w1 ++ w2, Ok b).
Proof. intros -> H. unfold bind. now rewrite H. Qed.

(** ** The pieces of the network tier *)

Lemma click_overview_returns (e : Env) :
  returns (click_overview e)
          (fun w _ => within {| b_text := 1; b_span := 1; b_read := 0;
                                b_expect := 0; b_on := 0 |} w).
Proof.
  unfold click_overview, returns.
  destruct (click_text e), (click_span e); cbn; eexists _, _;
    (split; [reflexivity | small_trace]).
Qed.

Lemma read_last_returns (matching_resps : list Response) (overview_html : option string) :
  returns (read_last matching_resps overview_html)
          (fun w v => v = read_value matching_resps overview_html
                      /\ within {| b_text := 0; b_span := 0; b_read := 1;
                                   b_expect := 0; b_on := 0 |} w).
Proof.
  unfold read_last, read_value, returns.
  destruct (PyStr.last_opt matching_resps) as [r|].
  - destruct (resp_text r) as [t|err]; cbn; eexists _, _;
      (split; [reflexivity | split; [reflexivity | small_trace]]).
  - eexists _, _. split; [reflexivity | split; [reflexivity | small_trace]].
Qed.

Lemma expect_tier_returns (e : Env) (clicked : bool)
      (matching_resps : list Response) (overview_html : option string) :
  returns (expect_tier e clicked matching_resps overview_html)
          (fun w _ => within {| b_text := 1; b_span := 0; b_read := 1;
                                b_expect := 1; b_on := 0 |} w).
Proof.
  unfold expect_tier, returns.
  destruct (has_expect_response e); [|eexists _, _; split; [reflexivity | small_trace]].
  rewrite deliver_eq.
  pose proof (within_listener (filter is_candidate (arrived_late e))) as Hl.
  set (logs := map listener_log (filter is_candidate (arrived_late e))) in *.
  destruct clicked, (click_text_again e), (expect_response (arrived_late e)) as [r|];
    cbn; try destruct (resp_text r); cbn; eexists _, _;
    (split; [reflexivity | trace_around Hl]).
Qed.

Lemma cleanup_returns (e : Env) :
  returns (cleanup e) (fun w _ => within no_calls w).
Proof.
  unfold cleanup, returns.
  destruct (page_off e), (page_close e); cbn; eexists _, _;
    (split; [reflexivity | small_trace]).
Qed.

Lemma try_finally_returns {A : Type} (m : M A) (f : M unit)
      (w1 w2 : list Event) (a : A) (u : unit) :
  m = (w1, Ok a) -> f = (w2, Ok u) -> try_finally m f = (w1 ++ w2, Ok a).
Proof. now intros -> ->. Qed.

(** The network tier always returns, whatever fails inside it, and stays
    within its budget of calls; a truthy text read from the last candidate
    is its value. *)
Lemma network_tier_returns (e : Env) :
  returns (network_tier e)
          (fun w v =>
             within network_budget w
             /\ (page e = true ->
                 truthy (read_value (filter is_candidate (arrived e)) None) = true ->
                 v = read_value (filter is_candidate (arrived e)) None)).
Proof.
  unfold network_tier, network_tier_at.
  destruct (page e);
    [|eexists _, _; split; [reflexivity | split; [small_trace | discriminate]]].
  destruct (click_overview_returns e) as (w1 & clicked & E1 & B1).
  pose proof (within_listener (filter is_candidate (arrived e))) as Bl.
  set (matching_resps := [] ++ filter is_candidate (arrived e)).
  destruct (read_last_returns matching_resps None) as (w2 & v & E2 & Hv & B2).
  destruct (cleanup_returns e) as (w4 & u & E4 & B4).
  assert (exists w3 v',
             (if negb (truthy v) then expect_tier e clicked matching_resps v else ret v)
             = (w3, Ok v')
             /\ within {| b_text := 1; b_span := 0; b_read := 1; b_expect := 1; b_on := 0 |} w3
             /\ (truthy v = true -> v' = v))
    as (w3 & v' & E3 & B3 & Hv').
  { destruct (truthy v); simpl.
    - eexists _, _. split; [reflexivity | split; [small_trace | intros _; reflexivity]].
    - destruct (expect_tier_returns e clicked matching_resps v) as (w3 & v' & E3 & B3).
      exists w3, v'. split; [exact E3 | split; [exact B3 | discriminate]]. }
  exists ([PageOn "response"]
          ++ (w1 ++ [WaitForTimeout 1400]
                 ++ map listener_log (filter is_candidate (arrived e)) ++ w2 ++ w3) ++ w4), v'.
  split.
  - eapply bind_returns; [reflexivity|].
    eapply try_finally_returns; [|exact E4].
    eapply bind_returns; [exact E1|].
    eapply bind_returns; [reflexivity|].
    eapply bind_returns; [apply deliver_eq|].
    eapply bind_returns; [exact E2|].
    exact E3.
  - split; [|intros _ Ht; subst v; now apply Hv'].
    assert (within {| b_text := 0; b_span := 0; b_read := 0; b_expect := 0; b_on := 1 |}
                   [PageOn "response"]) as B0 by small_trace.
    assert (within no_calls [WaitForTimeout 1400]) as Bw by small_trace.
    eapply within_weaken.
    + eapply within_app; [exact B0|].
      eapply within_app; [|exact B4].
      eapply within_app; [exact B1|].
      eapply within_app; [exact Bw|].
      eapply within_app; [exact Bl|].
      eapply within_app; [exact B2|exact B3].
    + simpl; lia.
    + simpl; lia.
    + simpl; lia.
    + simpl; lia.
    + simpl; lia.
Qed.

Lemma network_capture_eq (e : Env) :
  exists w, network_tier e = (w, Ok (network_capture e)) /\ within network_budget w.
Proof.
  destruct (network_tier_returns e) as (w & v & E & B & _).
  exists w. unfold network_capture, outcome. rewrite E. now split.
Qed.

(** ** The DOM tier *)

Lemma first_match_none (e : Env) (sels : list string) :
  first_match e sels = None ->
  forall sel, In sel sels -> truthy (css_get e sel) = false.
Proof. intros H sel Hin. exact (find_none _ _ H sel Hin). Qed.

Lemma first_match_some (e : Env) (sels : list string) (sel : string) :
  first_match e sels = Some sel ->
  exists pre post,
    sels = pre ++ sel :: post
    /\ (forall s, In s pre -> truthy (css_get e s) = false)
    /\ truthy (css_get e sel) = true.
Proof.
  unfold first_match. induction sels as [|s rest IH]; simpl; [discriminate|].
  destruct (truthy (css_get e s)) eqn:Hs.
  - intros [= ->]. exists [], rest. repeat split; auto. intros ? [].
  - intros H. destruct (IH H) as (pre & post & -> & Hpre & Hsel).
    exists (s :: pre), post. repeat split; auto.
    intros s' [<-|Hin]; auto.
Qed.

Lemma first_match_unique (e : Env) (pre post : list string) (sel : string) :
  (forall s, In s pre -> truthy (css_get e s) = false) ->
  truthy (css_get e sel) = true ->
  first_match e (pre ++ sel :: post) = Some sel.
Proof.
  unfold first_match. intros Hpre Hsel.
  induction pre as [|s pre IH]; simpl.
  - now rewrite Hsel.
  - rewrite (Hpre s (or_introl eq_refl)). apply IH.
    intros s' Hin. apply Hpre. now right.
Qed.

(** No selector matches: all of them are queried and the value stays falsy. *)
Lemma dom_loop_miss (e : Env) (sels : list string) :
  (forall s, In s sels -> truthy (css_get e s) = false) ->
  forall overview_html,
    truthy overview_html = false ->
    exists v, dom_loop e sels overview_html = (map CssGet sels, Ok v)
              /\ truthy v = false.
Proof.
  induction sels as [|s rest IH]; intros Hall oh Hoh; simpl.
  - now exists oh.
  - pose proof (Hall s (or_introl eq_refl)) as Hs.
    cbn. rewrite Hs.
    destruct (IH (fun s' H => Hall s' (or_intror H)) (css_get e s) Hs) as (v & E & Hv).
    rewrite E. now exists v.
Qed.

(** A selector matches after some that do not: the loop stops there. *)
Lemma dom_loop_hit (e : Env) (pre post : list string) (sel : string) :
  (forall s, In s pre -> truthy (css_get e s) = false) ->
  truthy (css_get e sel) = true ->
  forall overview_html,
    dom_loop e (pre ++ sel :: post) overview_html
    = (map CssGet pre
         ++ [CssGet sel; Log INFO ("Found overview in DOM using selector: " ++ sel)],
       Ok (css_get e sel)).
Proof.
  intros Hpre Hsel.
  induction pre as [|s pre IH]; intros oh; cbn.
  - now rewrite Hsel.
  - rewrite (Hpre s (or_introl eq_refl)).
    rewrite (IH (fun s' H => Hpre s' (or_intror H))). reflexivity.
Qed.

Lemma truthy_some (v : option string) :
  truthy v = true -> exists h, v = Some h /\ PyStr.nonempty h = true.
Proof. destruct v as [h|]; simpl; [now exists h | discriminate]. Qed.

(** ** The whole chain *)

Lemma parse_runs (urlparse_path : string -> string) (e : Env) :
  exists wn wc content,
    network_tier e = (wn, Ok (network_capture e))
    /\ within network_budget wn
    /\ chain e wc content
    /\ parse urlparse_path e
       = (wn ++ wc
             ++ [Makedirs "overview";
                 WriteFile (filepath urlparse_path e) content;
                 Log INFO ("Saved overview HTML to " ++ filepath urlparse_path e)],
          Ok [[("file", filepath urlparse_path e)]]).
Proof.
  destruct (network_capture_eq e) as (wn & En & Bn).
  assert (forall oh, save urlparse_path e oh
                     = ([Makedirs "overview";
                         WriteFile (filepath urlparse_path e) (or_empty oh);
                         Log INFO ("Saved overview HTML to " ++ filepath urlparse_path e)],
                        Ok [[("file", filepath urlparse_path e)]])) as Hsave.
  { intros oh. unfold save. rewrite filepath_in_overview. reflexivity. }
  unfold parse, parse_at. change (network_tier_at (Ok tt) e) with (network_tier e).
  rewrite En. unfold bind at 1.
  unfold dom_tier, full_page_tier.
  destruct (truthy (network_capture e)) eqn:Hn.
  - destruct (truthy_some _ Hn) as (s & Es & Hs).
    exists wn, [], s. split; [reflexivity|]. split; [exact Bn|]. split.
    + now apply from_network.
    + cbn - [save filepath]. rewrite Hn. cbn - [save filepath].
      rewrite Hsave, Es. reflexivity.
  - cbn [negb].
    destruct (first_match e selectors_to_try) as [sel|] eqn:Hf.
    + destruct (first_match_some _ _ _ Hf) as (pre & post & Esel & Hpre & Hsel).
      destruct (truthy_some _ Hsel) as (h & Eh & Hh).
      eexists wn, _, h. split; [reflexivity|]. split; [exact Bn|]. split.
      * eapply from_dom; eauto.
      * rewrite Esel, dom_loop_hit by assumption.
        cbn - [save filepath]. rewrite Hsel. cbn - [save filepath].
        rewrite Hsave, Eh. rewrite <- ?app_assoc. reflexivity.
    + pose proof (first_match_none _ _ Hf) as Hall.
      destruct (dom_loop_miss e selectors_to_try Hall _ Hn) as (v & Ev & Hv).
      eexists wn, _, (response_text e). split; [reflexivity|]. split; [exact Bn|]. split.
      * now apply from_full_page.
      * rewrite Ev. cbn - [save filepath]. rewrite Hv. cbn - [save filepath].
        rewrite Hsave. rewrite <- ?app_assoc. reflexivity.
Qed.

Lemma first_match_all_false (e : Env) (sels : list string) :
  (forall s, In s sels -> truthy (css_get e s) = false) ->
  first_match e sels = None.
Proof.
  unfold first_match. induction sels as [|s rest IH]; intros Hall; simpl; [reflexivity|].
  rewrite (Hall s (or_introl eq_refl)). apply IH. intros s' H. apply Hall. now right.
Qed.

(** Where the first truthy selector sits in a list is determined. *)
Lemma first_hit_unique (e : Env) (pre pre' post post' : list string) (sel sel' : string) :
  pre ++ sel :: post = pre' ++ sel' :: post' ->
  (forall s, In s pre -> truthy (css_get e s) = false) ->
  truthy (css_get e sel) = true ->
  (forall s, In s pre' -> truthy (css_get e s) = false) ->
  truthy (css_get e sel') = true ->
  pre = pre' /\ sel = sel'.
Proof.
  revert pre'. induction pre as [|a pre IH]; intros [|a' pre'] E Hpre Hsel Hpre' Hsel';
    simpl in E; injection E as E1 E2; subst.
  - now split.
  - rewrite (Hpre' a' (or_introl eq_refl)) in Hsel. discriminate.
  - rewrite (Hpre sel' (or_introl eq_refl)) in Hsel'. discriminate.
  - destruct (IH pre' E2) as [-> ->]; auto.
    + intros s H. apply Hpre. now right.
    + intros s H. apply Hpre'. now right.
Qed.

Lemma writes_css (sels : list string) : writes (map CssGet sels) = [].
Proof. induction sels; simpl; auto. Qed.

Lemma css_queries_css (sels : list string) : css_queries (map CssGet sels) = sels.
Proof. induction sels; simpl; congruence. Qed.

Lemma count_css (p : Event -> bool) (sels : list string) :
  (forall s, p (CssGet s) = false) -> count p (map CssGet sels) = 0%nat.
Proof.
  intros Hp. induction sels as [|s rest IH]; [reflexivity|].
  simpl. now rewrite count_cons, Hp, IH.
Qed.




Lemma chain_has_trace (e : Env) (wc : list Event) (content : string) :
  chain e wc content -> chain_trace wc.
Proof.
  intros [s Hs Hn | pre post sel h Hn Esel Hpre Hsel Hh | Hn Hall].
  - constructor; try reflexivity; [now exists selectors_to_try | cbn; lia].
  - constructor;
      rewrite ?writes_app, ?css_queries_app, ?count_app, ?writes_css, ?css_queries_css,
        ?count_css by (intros; reflexivity); try reflexivity; try (cbn; lia).
    exists post. cbn [css_queries]. now rewrite <- app_assoc.
  - constructor;
      rewrite ?writes_app, ?css_queries_app, ?count_app, ?writes_css, ?css_queries_css,
        ?count_css by (intros; reflexivity); try reflexivity; try (cbn; lia).
    exists []. reflexivity.
Qed.

(** The trace of a run, cut into the network tier, the later tiers and the
    saving of the file. *)
Lemma parse_writes (urlparse_path : string -> string) (e : Env)
      (wn wc : list Event) (content : string) :
  within network_budget wn -> chain e wc content ->
  writes (wn ++ wc
             ++ [Makedirs "overview";
                 WriteFile (filepath urlparse_path e) content;
                 Log INFO ("Saved overview HTML to " ++ filepath urlparse_path e)])
  = [(filepath urlparse_path e, content)].
Proof.
  intros Bn Hc. apply chain_has_trace in Hc. destruct Bn, Hc.
  rewrite !writes_app, in_writes0, ct_writes0. reflexivity.
Qed.

Lemma chain_content (e : Env) (wc : list Event) (content : string) :
  chain e wc content -> content = priority_content e.
Proof.
  unfold priority_content.
  intros [s Hs Hn | pre post sel h Hn Esel Hpre Hsel Hh | Hn Hall].
  - rewrite Hs. simpl. now rewrite Hn.
  - rewrite Hn, Esel.
    rewrite first_match_unique; auto; rewrite Hsel; auto.
  - now rewrite Hn, first_match_all_false.
Qed.

(** C1: the file holds the network capture when that is a non-empty text;
    otherwise the HTML of the first selector that matches; otherwise the
    text of the rendered page.  The network tier itself always hands a
    value on. *)
Theorem fallback_priority (urlparse_path : string -> string) (e : Env) :
  outcome (network_tier e) = Ok (network_capture e)
  /\ writes (trace (parse urlparse_path e))
     = [(filepath urlparse_path e, priority_content e)].
Proof.
  destruct (parse_runs urlparse_path e) as (wn & wc & content & En & Bn & Hc & Ep).
  split.
  - now rewrite En.
  - rewrite Ep. unfold trace, fst.
    rewrite (parse_writes urlparse_path e wn wc content Bn Hc).
    now rewrite (chain_content e wc content Hc).
Qed.


(** C8: the selectors are the five listed, in that order; when the network
    tier captured nothing, the selectors before some selector give nothing
    and that selector gives a non-empty match, then exactly the selectors
    up to and including it are queried, in order, and its match is what is
    saved. *)
Theorem dom_selectors_in_order (urlparse_path : string -> string) (e : Env)
        (pre post : list string) (sel h : string) :
  truthy (network_capture e) = false ->
  selectors_to_try = pre ++ sel :: post ->
  (forall s, In s pre -> truthy (css_get e s) = false) ->
  css_get e sel = Some h ->
  PyStr.nonempty h = true ->
  selectors_to_try
  = [ "div.p-tabview-panels div.p-tabview-panel.p-tabview-panel-active";
      "div.p-tabview-panels"; "section#overview"; "div.overview"; "div#overview" ]
  /\ css_queries (trace (parse urlparse_path e)) = pre ++ [sel]
  /\ writes (trace (parse urlparse_path e)) = [(filepath urlparse_path e, h)].
Proof.
  intros Hn Esel Hpre Hsel Hh.
  destruct (parse_runs urlparse_path e) as (wn & wc & content & En & Bn & Hc & Ep).
  pose proof (parse_writes urlparse_path e wn wc content Bn Hc) as Hw.
  assert (truthy (css_get e sel) = true) as Hsel' by now rewrite Hsel.
  split; [reflexivity|].
  rewrite Ep. unfold trace, fst. rewrite Hw.
  destruct Bn. rewrite !css_queries_app, in_css0. cbn [app].
  destruct Hc as [s Hs Hs' | pre' post' sel' h' _ Esel' Hpre' Hsel'' Hh' | _ Hall].
  - rewrite Hs in Hn. simpl in Hn. congruence.
  - assert (truthy (css_get e sel') = true) as Ht by now rewrite Hsel''.
    rewrite Esel in Esel'.
    destruct (first_hit_unique e pre pre' post post' sel sel' Esel' Hpre Hsel' Hpre' Ht)
      as [<- <-].
    rewrite css_queries_app, css_queries_css. cbn. rewrite app_nil_r.
    split; [reflexivity|]. congruence.
  - rewrite Hall in Hsel'; [discriminate|].
    rewrite Esel. apply in_or_app. right. now left.
Qed.

(** C9: when the listener has captured candidates, the body that is read
    is that of the last one, whatever came before it, and its text is what
    [overview_html] is set to; if that text is not empty, it is the network
    capture and the content of the file. *)
Theorem last_candidate_is_used (urlparse_path : string -> string) (e : Env)
        (rs : list Response) (r : Response) :
  page e = true ->
  outcome (deliver (arrived e) []) = Ok (rs ++ [r]) ->
  (forall overview_html,
      read_last (rs ++ [r]) overview_html = read_last [r] overview_html)
  /\ (forall s overview_html,
         resp_text r = Ok s ->
         outcome (read_last (rs ++ [r]) overview_html) = Ok (Some s))
  /\ (forall s, resp_text r = Ok s -> PyStr.nonempty s = true ->
                network_capture e = Some s
                /\ writes (trace (parse urlparse_path e))
                   = [(filepath urlparse_path e, s)]).
Proof.
  intros Hpage Hm. rewrite deliver_eq in Hm. unfold outcome, snd in Hm.
  injection Hm as Hm. cbn [app] in Hm.
  split; [|split].
  - intros oh. unfold read_last. now rewrite last_opt_snoc.
  - intros s oh Hr. unfold read_last. rewrite last_opt_snoc. cbn. now rewrite Hr.
  - intros s Hr Hs.
    assert (network_capture e = Some s) as Hcap.
    { destruct (network_tier_returns e) as (w & v & E & _ & Hv).
      unfold network_capture, outcome. rewrite E. cbn.
      rewrite Hm in Hv. unfold read_value in Hv. rewrite last_opt_snoc, Hr in Hv.
      now apply Hv. }
    split; [exact Hcap|].
    destruct (parse_runs urlparse_path e) as (wn & wc & content & En & Bn & Hc & Ep).
    rewrite Ep. unfold trace, fst.
    rewrite (parse_writes urlparse_path e wn wc content Bn Hc).
    rewrite (chain_content e wc content Hc).
    unfold priority_content. rewrite Hcap. cbn. now rewrite Hs.
Qed.

(** * The statements at concrete runs *)

Lemma default_slug_at_root :
  segments PlainUrl.path "https://shop.unicornstore.in/" = []
  /\ safe PlainUrl.path "https://shop.unicornstore.in/" = "product"
  /\ sanitize (slug PlainUrl.path "https://shop.unicornstore.in/product/%%%") = ""
  /\ safe PlainUrl.path "https://shop.unicornstore.in/product/%%%" = "product".
Proof.
  split; [reflexivity|].
  split.
  - apply (proj1 (default_slug_nonempty PlainUrl.path 0 "https://shop.unicornstore.in/")).
    reflexivity.
  - split; [reflexivity|].
    apply (proj1 (proj2 (default_slug_nonempty PlainUrl.path 0
                           "https://shop.unicornstore.in/product/%%%"))).
    reflexivity.
Defined.

Lemma dom_selectors_at_degraded :
  truthy (network_capture Runs.degraded) = false
  /\ css_queries (trace (parse PlainUrl.path Runs.degraded))
     = [ "div.p-tabview-panels div.p-tabview-panel.p-tabview-panel-active";
         "div.p-tabview-panels"; "section#overview" ] ++ ["div.overview"]
  /\ writes (trace (parse PlainUrl.path Runs.degraded))
     = [(filepath PlainUrl.path Runs.degraded, "<div class=overview>")].
Proof.
  split; [reflexivity|].
  apply (dom_selectors_in_order PlainUrl.path Runs.degraded
           [ "div.p-tabview-panels div.p-tabview-panel.p-tabview-panel-active";
             "div.p-tabview-panels"; "section#overview" ]
           ["div#overview"] "div.overview" "<div class=overview>").
  - reflexivity.
  - reflexivity.
  - intros s [<-|[<-|[<-|[]]]]; reflexivity.
  - reflexivity.
  - reflexivity.
Defined.

Lemma last_candidate_at_captured :
  page Runs.captured = true
  /\ outcome (deliver (arrived Runs.captured) [])
     = Ok ([Runs.first_fragment] ++ [Runs.last_fragment])
  /\ network_capture Runs.captured = Some "<p>last</p>"
  /\ writes (trace (parse PlainUrl.path Runs.captured))
     = [(filepath PlainUrl.path Runs.captured, "<p>last</p>")].
Proof.
  split; [reflexivity|]. split; [reflexivity|].
  apply (proj2 (proj2 (last_candidate_is_used PlainUrl.path Runs.captured
                         [Runs.first_fragment] Runs.last_fragment eq_refl eq_refl))).
  - reflexivity.
  - reflexivity.
Defined.

(** * Further properties of the filename *)

Lemma re_sub_from_clean (s : string) :
  PyStr.all_chars allowed s = true -> forall in_run, re_sub_from in_run s = s.
Proof.
  induction s as [|c t IH]; simpl; [easy|].
  intros H in_run. apply andb_prop in H as [Hc Ht].
  rewrite Hc. now rewrite IH.
Qed.

Lemma startswith_nil (s : string) : PyStr.startswith s "" = true.
Proof. now destruct s. Qed.

Lemma startswith_char (a c : ascii) (t : string) :
  PyStr.startswith (String a t) (String c "") = Ascii.eqb a c.
Proof. cbn [PyStr.startswith]. now rewrite startswith_nil, andb_true_r. Qed.

Lemma lstrip_keeps (c : ascii) (s : string) :
  PyStr.startswith s (String c "") = false -> PyStr.lstrip c s = s.
Proof.
  destruct s as [|a t]; [easy|].
  rewrite startswith_char. cbn [PyStr.lstrip]. now intros ->.
Qed.

Lemma rstrip_keeps (c : ascii) (s : string) :
  PyStr.endswith s (String c "") = false -> PyStr.rstrip c s = s.
Proof.
  induction s as [|a t IH]; [easy|].
  cbn [PyStr.endswith PyStr.rstrip]. intros H.
  apply orb_false_iff in H as [Hhead Ht].
  rewrite (IH Ht). destruct t as [|b u]; [|reflexivity].
  simpl in Hhead. destruct (Ascii.eqb a c); [discriminate Hhead|reflexivity].
Qed.

Lemma lstrip_no_lead (c : ascii) (s : string) :
  PyStr.startswith (PyStr.lstrip c s) (String c "") = false.
Proof.
  induction s as [|a t IH]; [reflexivity|].
  cbn [PyStr.lstrip]. destruct (Ascii.eqb a c) eqn:E; [exact IH|].
  now rewrite startswith_char.
Qed.

Lemma rstrip_head (c : ascii) (s : string) :
  PyStr.startswith s (String c "") = false ->
  PyStr.startswith (PyStr.rstrip c s) (String c "") = false.
Proof.
  destruct s as [|a t]; [easy|].
  rewrite startswith_char. intros E. cbn [PyStr.rstrip].
  destruct (PyStr.rstrip c t); [rewrite E|]; now rewrite startswith_char.
Qed.

Lemma rstrip_no_trail (c : ascii) (s : string) :
  PyStr.endswith (PyStr.rstrip c s) (String c "") = false.
Proof.
  induction s as [|a t IH]; [reflexivity|].
  cbn [PyStr.rstrip].
  destruct (PyStr.rstrip c t) as [|b u] eqn:E.
  - destruct (Ascii.eqb a c) eqn:Ea; [reflexivity|].
    simpl. now rewrite Ea.
  - change (String.eqb (String a (String b u)) (String c "")
            || PyStr.endswith (String b u) (String c "") = false).
    rewrite IH. simpl. destruct (Ascii.eqb a c); reflexivity.
Qed.

Lemma sanitize_trimmed (s : string) :
  PyStr.startswith (sanitize s) "_" = false /\ PyStr.endswith (sanitize s) "_" = false.
Proof.
  unfold sanitize, PyStr.strip. split.
  - apply rstrip_head, lstrip_no_lead.
  - apply rstrip_no_trail.
Qed.

Lemma sanitize_clean (s : string) :
  PyStr.all_chars allowed s = true ->
  PyStr.startswith s "_" = false ->
  PyStr.endswith s "_" = false ->
  sanitize s = s.
Proof.
  intros Ha Hl Hr. unfold sanitize, re_sub, PyStr.strip.
  rewrite re_sub_from_clean by exact Ha.
  rewrite lstrip_keeps by exact Hl. now apply rstrip_keeps.
Qed.

(** X1: sanitising twice is sanitising once. *)
Theorem sanitize_idempotent (s : string) : sanitize (sanitize s) = sanitize s.
Proof.
  destruct (sanitize_trimmed s) as [Hl Hr].
  apply sanitize_clean; [apply sanitize_allowed | exact Hl | exact Hr].
Qed.

(** X2: a sanitised slug neither begins nor ends with an underscore. *)
Theorem sanitize_no_outer_underscore (s : string) :
  PyStr.startswith (sanitize s) "_" = false /\ PyStr.endswith (sanitize s) "_" = false.
Proof.
  unfold sanitize, PyStr.strip. split.
  - apply rstrip_head, lstrip_no_lead.
  - apply rstrip_no_trail.
Qed.

(** X3: a segment made of characters of the class only, with no underscore
    at either end, is its own slug. *)
Theorem clean_segment_unchanged (s : string) :
  PyStr.all_chars allowed s = true ->
  PyStr.startswith s "_" = false ->
  PyStr.endswith s "_" = false ->
  sanitize s = s.
Proof.
  intros Ha Hl Hr. unfold sanitize, re_sub, PyStr.strip.
  rewrite (re_sub_from_clean s Ha).
  rewrite (lstrip_keeps "_" s Hl).
  exact (rstrip_keeps "_" s Hr).
Qed.

Lemma is_word_allowed (c : ascii) : is_word c = true -> allowed c = true.
Proof.
  unfold is_word, allowed. intros H.
  apply orb_true_iff in H as [H|H].
  - rewrite H. reflexivity.
  - rewrite H. now rewrite !orb_true_r.
Qed.

Lemma re_sub_from_words (s : string) :
  forall in_run, filter_chars is_word (re_sub_from in_run s) = filter_chars is_word s.
Proof.
  induction s as [|c t IH]; intros in_run; [reflexivity|].
  cbn [re_sub_from filter_chars].
  destruct (allowed c) eqn:Ha.
  - cbn [filter_chars]. now rewrite IH.
  - assert (is_word c = false) as ->.
    { destruct (is_word c) eqn:Hw; [|reflexivity].
      apply is_word_allowed in Hw. congruence. }
    destruct in_run; [apply IH|].
    cbn [filter_chars]. change (is_word "_") with false. apply IH.
Qed.

Lemma lstrip_filter (p : ascii -> bool) (c : ascii) (s : string) :
  p c = false -> filter_chars p (PyStr.lstrip c s) = filter_chars p s.
Proof.
  intros Hp. induction s as [|a t IH]; [reflexivity|].
  simpl. destruct (Ascii.eqb a c) eqn:E; [|reflexivity].
  apply Ascii.eqb_eq in E. subst a. now rewrite Hp.
Qed.

Lemma rstrip_filter (p : ascii -> bool) (c : ascii) (s : string) :
  p c = false -> filter_chars p (PyStr.rstrip c s) = filter_chars p s.
Proof.
  intros Hp. induction s as [|a t IH]; [reflexivity|].
  cbn [PyStr.rstrip filter_chars]. rewrite <- IH.
  destruct (PyStr.rstrip c t) as [|b u].
  - destruct (Ascii.eqb a c) eqn:E.
    + apply Ascii.eqb_eq in E. subst a. now rewrite Hp.
    + reflexivity.
  - reflexivity.
Qed.

Lemma re_sub_from_length (s : string) :
  forall in_run, (String.length (re_sub_from in_run s) <= String.length s)%nat.
Proof.
  induction s as [|c t IH]; intros in_run; simpl; [lia|].
  destruct (allowed c); simpl.
  - specialize (IH false). lia.
  - destruct in_run; simpl; specialize (IH true); lia.
Qed.

Lemma lstrip_length (c : ascii) (s : string) :
  (String.length (PyStr.lstrip c s) <= String.length s)%nat.
Proof.
  induction s as [|a t IH]; simpl; [lia|].
  destruct (Ascii.eqb a c); simpl; lia.
Qed.

Lemma rstrip_length (c : ascii) (s : string) :
  (String.length (PyStr.rstrip c s) <= String.length s)%nat.
Proof.
  induction s as [|a t IH]; [simpl; lia|].
  cbn [PyStr.rstrip]. destruct (PyStr.rstrip c t) as [|b u].
  - destruct (Ascii.eqb a c); simpl; lia.
  - simpl in *. lia.
Qed.

Lemma allowed_word_or_underscore (c : ascii) :
  allowed c = is_word c || Ascii.eqb c "_".
Proof.
  unfold allowed, is_word.
  destruct (PyStr.is_digit c), (PyStr.is_lower c), (PyStr.is_upper c),
    (Ascii.eqb c "_"), (Ascii.eqb c "-"); reflexivity.
Qed.

(** X4: sanitising keeps the ASCII letters, the digits and the hyphens of
    the segment, in their order; whatever else the result holds is an
    underscore; and the result is never longer than the segment.  Every
    other character of the segment, a non-ASCII letter included, is gone. *)
Theorem sanitize_keeps_words (s : string) :
  filter_chars is_word (sanitize s) = filter_chars is_word s
  /\ PyStr.all_chars (fun c => is_word c || Ascii.eqb c "_") (sanitize s) = true
  /\ (String.length (sanitize s) <= String.length s)%nat.
Proof.
  split; [|split].
  - unfold sanitize, PyStr.strip, re_sub.
    rewrite rstrip_filter, lstrip_filter by reflexivity.
    apply re_sub_from_words.
  - pose proof (sanitize_allowed s) as Ha. revert Ha.
    generalize (sanitize s). intros t.
    induction t as [|c t IH]; simpl; [easy|].
    rewrite allowed_word_or_underscore. intros H.
    apply andb_prop in H as [-> Ht]. now rewrite IH.
  - unfold sanitize, PyStr.strip, re_sub.
    pose proof (rstrip_length "_" (PyStr.lstrip "_" (re_sub_from false s))).
    pose proof (lstrip_length "_" (re_sub_from false s)).
    pose proof (re_sub_from_length s false). lia.
Qed.

Lemma string_app_assoc (a b c : string) : ((a ++ b) ++ c = a ++ (b ++ c))%string.
Proof. induction a as [|x a IH]; simpl; [reflexivity|now rewrite IH]. Qed.

Lemma string_app_nil_r (a : string) : (a ++ "" = a)%string.
Proof. induction a as [|x a IH]; simpl; [reflexivity|now rewrite IH]. Qed.

Lemma string_app_length (a b : string) :
  String.length (a ++ b) = (String.length a + String.length b)%nat.
Proof. induction a as [|x a IH]; simpl; [reflexivity|now rewrite IH]. Qed.

Lemma string_app_inv_head (a x y : string) : (a ++ x = a ++ y)%string -> x = y.
Proof. induction a as [|c a IH]; simpl; [easy|]. intros [= H]. now apply IH. Qed.

Lemma string_app_inv_tail (s : string) :
  forall x y, (x ++ s = y ++ s)%string -> x = y.
Proof.
  induction x as [|c x IH]; intros [|d y] H; simpl in H.
  - reflexivity.
  - apply (f_equal String.length) in H. simpl in H.
    rewrite string_app_length in H. lia.
  - apply (f_equal String.length) in H. simpl in H.
    rewrite string_app_length in H. lia.
  - injection H as -> H. f_equal. now apply IH.
Qed.

Lemma all_chars_app (p : ascii -> bool) (a b : string) :
  PyStr.all_chars p (a ++ b) = PyStr.all_chars p a && PyStr.all_chars p b.
Proof.
  induction a as [|c a IH]; simpl; [reflexivity|].
  now rewrite IH, andb_assoc.
Qed.

Lemma all_chars_weaken (p q : ascii -> bool) (s : string) :
  (forall c, p c = true -> q c = true) ->
  PyStr.all_chars p s = true -> PyStr.all_chars q s = true.
Proof.
  intros Hpq. induction s as [|c t IH]; simpl; [easy|].
  intros H. apply andb_prop in H as [Hc Ht].
  now rewrite (Hpq c Hc), IH.
Qed.

Lemma endswith_app (a b : string) : PyStr.endswith (a ++ b) b = true.
Proof.
  induction a as [|c a IH].
  - destruct b; simpl; [reflexivity|].
    now rewrite Ascii.eqb_refl, String.eqb_refl.
  - cbn [append PyStr.endswith]. rewrite IH. apply orb_true_r.
Qed.

Lemma endswith_app_r (a b suf : string) :
  PyStr.endswith b suf = true -> PyStr.endswith (a ++ b) suf = true.
Proof.
  intros H. induction a as [|c a IH]; [exact H|].
  cbn [append PyStr.endswith]. rewrite IH. apply orb_true_r.
Qed.

Lemma uint_chars (d : Decimal.uint) :
  PyStr.all_chars allowed (NilEmpty.string_of_uint d) = true.
Proof. induction d; simpl; auto. Qed.

Lemma nilzero_uint_chars (d : Decimal.uint) :
  PyStr.all_chars allowed (NilZero.string_of_uint d) = true.
Proof. destruct d; try reflexivity; apply uint_chars. Qed.

Lemma str_of_int_chars (n : Z) : PyStr.all_chars allowed (PyStr.str_of_int n) = true.
Proof.
  unfold PyStr.str_of_int, NilZero.string_of_int.
  destruct (Z.to_int n) as [d|d].
  - apply nilzero_uint_chars.
  - change (allowed "-" && PyStr.all_chars allowed (NilZero.string_of_uint d) = true).
    now rewrite nilzero_uint_chars.
Qed.

Lemma str_of_int_inj (a b : Z) : PyStr.str_of_int a = PyStr.str_of_int b -> a = b.
Proof.
  unfold PyStr.str_of_int. intros H.
  assert (forall z, NilZero.int_of_string (NilZero.string_of_int (Z.to_int z))
                    = Some (Z.to_int z)) as Hback.
  { intros z. apply NilZero.isi; destruct z; simpl; try discriminate;
      intros [= E]; now apply DecimalPos.Unsigned.to_uint_nonnil in E. }
  pose proof (Hback a) as Ha. rewrite H, Hback in Ha. injection Ha as Ha.
  rewrite <- (DecimalZ.of_to a), <- (DecimalZ.of_to b). now rewrite Ha.
Qed.

(** Reading the text of an integer as a decimal numeral gives the integer. *)
Lemma str_of_int_reads_back (n : Z) :
  option_map Z.of_int (NilZero.int_of_string (PyStr.str_of_int n)) = Some n.
Proof.
  unfold PyStr.str_of_int.
  rewrite NilZero.isi.
  - simpl. now rewrite DecimalZ.of_to.
  - destruct n; simpl; try discriminate.
    intros [= E]. now apply DecimalPos.Unsigned.to_uint_nonnil in E.
  - destruct n; simpl; try discriminate.
    intros [= E]. now apply DecimalPos.Unsigned.to_uint_nonnil in E.
Qed.

Lemma name_char_not_slash (c : ascii) :
  name_char c = true -> negb (Ascii.eqb c "/") = true.
Proof.
  destruct (Ascii.eqb c "/") eqn:E; [|reflexivity].
  apply Ascii.eqb_eq in E. subst c. discriminate.
Qed.

Lemma filename_chars (urlparse_path : string -> string) (ts : Z) (url : string) :
  PyStr.all_chars name_char (_make_safe_filename urlparse_path ts url) = true.
Proof.
  assert (forall s, PyStr.all_chars allowed s = true ->
                    PyStr.all_chars name_char s = true) as Hw.
  { intros s. apply all_chars_weaken. intros c Hc. unfold name_char. now rewrite Hc. }
  unfold _make_safe_filename. rewrite !all_chars_app.
  rewrite (Hw _ (safe_allowed urlparse_path url)), (Hw _ (str_of_int_chars ts)).
  reflexivity.
Qed.

(** X5: the filename is made of characters of [0-9a-zA-Z_-] and the dot,
    so it has no slash, it ends in [.html], and the path of the file is
    the directory [overview], one slash and that name. *)
Theorem filename_stays_in_directory (urlparse_path : string -> string) (e : Env) :
  let name := _make_safe_filename urlparse_path (clock e) (response_url e) in
  PyStr.all_chars name_char name = true
  /\ slash_free name = true
  /\ PyStr.endswith name ".html" = true
  /\ filepath urlparse_path e = ("overview/" ++ name)%string
  /\ os_path_join "overview" name = filepath urlparse_path e.
Proof.
  cbv zeta. split; [apply filename_chars|]. split; [|split; [|split]].
  - unfold slash_free. apply (all_chars_weaken name_char).
    + apply name_char_not_slash.
    + apply filename_chars.
  - unfold _make_safe_filename.
    rewrite <- !string_app_assoc. apply endswith_app.
  - reflexivity.
  - apply filepath_in_overview.
Qed.

(** X6: for one URL, two clock readings give the same filename only when
    they are equal: runs in different seconds do not write over each
    other. *)
Theorem filename_tells_seconds_apart (urlparse_path : string -> string)
        (url : string) (t1 t2 : Z) :
  _make_safe_filename urlparse_path t1 url = _make_safe_filename urlparse_path t2 url ->
  t1 = t2.
Proof.
  unfold _make_safe_filename. intros H.
  apply string_app_inv_head in H. apply string_app_inv_head in H.
  apply string_app_inv_tail in H. now apply str_of_int_inj.
Qed.

(** ** Segments of the path *)

Lemma split_nonempty (sep : ascii) (s : string) : PyStr.split sep s <> [].
Proof.
  destruct s as [|c t]; simpl; [discriminate|].
  destruct (Ascii.eqb c sep); [discriminate|].
  destruct (PyStr.split sep t); discriminate.
Qed.

Lemma concat_cons (sep x : string) (xs : list string) :
  xs <> [] -> String.concat sep (x :: xs) = (x ++ sep ++ String.concat sep xs)%string.
Proof. destruct xs; [contradiction|reflexivity]. Qed.

(** Joining the pieces of a split with the separator gives the text back. *)
Lemma split_join (s : string) : String.concat "/" (PyStr.split "/" s) = s.
Proof.
  induction s as [|c t IH]; [reflexivity|].
  cbn [PyStr.split]. destruct (Ascii.eqb c "/") eqn:E.
  - apply Ascii.eqb_eq in E. subst c.
    rewrite concat_cons by apply split_nonempty. now rewrite IH.
  - pose proof (split_nonempty "/" t) as Hne.
    destruct (PyStr.split "/" t) as [|h rest]; [contradiction|].
    destruct rest as [|r rest].
    + simpl in *. now rewrite IH.
    + rewrite concat_cons by discriminate.
      rewrite concat_cons in IH by discriminate.
      rewrite <- IH. reflexivity.
Qed.

Lemma split_slash_free (s : string) :
  Forall (fun x => slash_free x = true) (PyStr.split "/" s).
Proof.
  induction s as [|c t IH]; [repeat constructor|].
  cbn [PyStr.split]. destruct (Ascii.eqb c "/") eqn:E.
  - constructor; [reflexivity|exact IH].
  - pose proof (split_nonempty "/" t) as Hne.
    destruct (PyStr.split "/" t) as [|h rest]; [contradiction|].
    inversion IH as [|? ? Hh Hrest]; subst.
    constructor; [|exact Hrest].
    unfold slash_free in *. simpl. now rewrite E, Hh.
Qed.

Lemma filter_nonempty_nil (l : list string) :
  filter PyStr.nonempty l = [] -> l = repeat EmptyString (length l).
Proof.
  induction l as [|x l IH]; [reflexivity|].
  simpl. destruct x; simpl; [|discriminate].
  intros H. now rewrite <- IH.
Qed.

(** The last non-empty entry of a list is followed by empty ones only. *)
Lemma last_nonempty_split (l : list string) (seg : string) :
  PyStr.last_opt (filter PyStr.nonempty l) = Some seg ->
  exists l1 k, l = l1 ++ seg :: repeat EmptyString k /\ PyStr.nonempty seg = true.
Proof.
  induction l as [|x l IH]; [discriminate|].
  cbn [filter]. destruct (PyStr.nonempty x) eqn:Hx.
  - destruct (filter PyStr.nonempty l) as [|y ys] eqn:Hf.
    + intros [= <-]. exists [], (length l). split; [|exact Hx].
      simpl. f_equal. now apply filter_nonempty_nil.
    + intros H. change (PyStr.last_opt (y :: ys) = Some seg) in H.
      destruct (IH H) as (l1 & k & -> & Hs).
      now exists (x :: l1), k.
  - intros H. destruct (IH H) as (l1 & k & -> & Hs).
    now exists (x :: l1), k.
Qed.

Lemma concat_trailing (seg : string) (k : nat) :
  String.concat "/" (seg :: repeat EmptyString k) = (seg ++ slashes k)%string.
Proof.
  revert seg. induction k as [|k IH]; intros seg.
  - simpl. now rewrite string_app_nil_r.
  - cbn [repeat]. rewrite concat_cons by discriminate.
    rewrite IH. reflexivity.
Qed.

Lemma concat_leading (l1 tail : list string) :
  tail <> [] ->
  exists pre,
    String.concat "/" (l1 ++ tail) = (pre ++ String.concat "/" tail)%string
    /\ (pre = EmptyString \/ PyStr.endswith pre "/" = true).
Proof.
  intros Ht. induction l1 as [|x l1 IH].
  - exists EmptyString. split; [reflexivity|now left].
  - destruct IH as (pre & E & Hpre).
    exists (x ++ "/" ++ pre)%string. split.
    + cbn [app]. rewrite concat_cons.
      * rewrite E. now rewrite !string_app_assoc.
      * destruct l1; [exact Ht|discriminate].
    + right. destruct Hpre as [->|Hpre].
      * rewrite string_app_nil_r. apply endswith_app.
      * rewrite <- string_app_assoc. now apply endswith_app_r.
Qed.

(** X7: when the path has a non-empty segment, the slug taken on line 49
    is a slash-free, non-empty piece of the path that is followed by
    slashes only and preceded by nothing or by text ending in a slash;
    when it has none, the path consists of slashes. *)
Theorem slug_is_last_segment (urlparse_path : string -> string) (url : string) :
  (forall seg,
      PyStr.last_opt (segments urlparse_path url) = Some seg ->
      slug urlparse_path url = seg
      /\ PyStr.nonempty seg = true
      /\ slash_free seg = true
      /\ exists pre k,
          urlparse_path url = (pre ++ seg ++ slashes k)%string
          /\ (pre = EmptyString \/ PyStr.endswith pre "/" = true))
  /\ (segments urlparse_path url = [] ->
      slug urlparse_path url = "product"
      /\ exists k, urlparse_path url = slashes k).
Proof.
  unfold slug, segments. split.
  - intros seg Hseg. rewrite Hseg. split; [reflexivity|].
    destruct (last_nonempty_split _ _ Hseg) as (l1 & k & El & Hne).
    split; [exact Hne|]. split.
    + pose proof (split_slash_free (urlparse_path url)) as Hall.
      rewrite El in Hall. apply Forall_app in Hall as [_ Hall].
      now inversion Hall.
    + destruct (concat_leading l1 (seg :: repeat EmptyString k)) as (pre & E & Hpre);
        [discriminate|].
      exists pre, k. split; [|exact Hpre].
      rewrite <- (split_join (urlparse_path url)), El, E.
      now rewrite concat_trailing.
  - intros Hnil. rewrite Hnil. split; [reflexivity|].
    apply filter_nonempty_nil in Hnil.
    pose proof (split_nonempty "/" (urlparse_path url)) as Hne.
    destruct (PyStr.split "/" (urlparse_path url)) as [|x l] eqn:El; [contradiction|].
    simpl in Hnil. injection Hnil as Hx Hl.
    remember (length l) as k eqn:Ek. clear Ek.
    exists k. rewrite <- (split_join (urlparse_path url)), El, Hx, Hl.
    apply concat_trailing.
Qed.

(** * Further properties of the callback *)

(** Counting in a trace of literal events around blocks of listener lines. *)
Ltac count_events :=
  repeat (rewrite count_cons || rewrite count_app || rewrite count_nil);
  rewrite ?count_listener by (intros ?; reflexivity);
  cbn; try reflexivity; try lia.

Lemma cleanup_eq (e : Env) : cleanup e = ([PageOff "response"; PageClose], Ok tt).
Proof.
  unfold cleanup.
  destruct (page_off e) as [[]|], (page_close e) as [[]|]; reflexivity.
Qed.

Lemma click_overview_exact (e : Env) :
  exists w,
    click_overview e
    = (w, Ok match click_text e, click_span e with
             | Raise _, Raise _ => false
             | _, _ => true
             end)
    /\ count is_lifecycle w = 0%nat
    /\ count (is_click sel_text) w = 1%nat
    /\ count (is_click sel_span) w
       = match click_text e with Ok _ => 0%nat | Raise _ => 1%nat end
    /\ count is_expect w = 0%nat
    /\ count is_read w = 0%nat.
Proof.
  unfold click_overview.
  destruct (click_text e), (click_span e); cbn; eexists;
    (split; [reflexivity|]); repeat split; reflexivity.
Qed.

Lemma read_last_exact (matching_resps : list Response) (overview_html : option string) :
  exists w,
    read_last matching_resps overview_html
    = (w, Ok (read_value matching_resps overview_html))
    /\ count is_lifecycle w = 0%nat
    /\ (forall sel, count (is_click sel) w = 0%nat)
    /\ count is_expect w = 0%nat
    /\ count is_read w
       = match PyStr.last_opt matching_resps with Some _ => 1%nat | None => 0%nat end.
Proof.
  unfold read_last, read_value.
  destruct (PyStr.last_opt matching_resps) as [r|].
  - destruct (resp_text r); cbn; eexists;
      (split; [reflexivity|]); repeat split; reflexivity.
  - eexists. split; [reflexivity|]. repeat split; reflexivity.
Qed.

Lemma expect_tier_exact (e : Env) (clicked : bool)
      (matching_resps : list Response) (overview_html : option string) :
  exists w,
    expect_tier e clicked matching_resps overview_html = (w, Ok overview_html)
    /\ count is_lifecycle w = 0%nat
    /\ count (is_click sel_span) w = 0%nat
    /\ count (is_click sel_text) w
       = (if has_expect_response e then if clicked then 0 else 1 else 0)%nat
    /\ count is_expect w = (if has_expect_response e then 1 else 0)%nat
    /\ count is_read w = 0%nat.
Proof.
  unfold expect_tier, expect_response, coroutine_text.
  destruct (has_expect_response e).
  - rewrite deliver_eq.
    destruct clicked, (click_text_again e), (find predicate (arrived_late e)) as [r|];
      cbn; eexists; (split; [reflexivity|]); repeat split; count_events.
  - eexists. split; [reflexivity|]. repeat split; reflexivity.
Qed.

(** The network tier with a page and a delay that returns, piece by
    piece: its value and how often it makes each kind of call. *)
Lemma network_tier_exact (e : Env) :
  page e = true ->
  exists w,
    network_tier e
    = (PageOn "response" :: w ++ [PageOff "response"; PageClose],
       Ok (listener_value e))
    /\ count is_lifecycle w = 0%nat
    /\ count (is_click sel_span) w
       = match click_text e with Ok _ => 0%nat | Raise _ => 1%nat end
    /\ count (is_click sel_text) w
       = (1 + if truthy (listener_value e) then 0
              else if has_expect_response e
                   then match click_text e, click_span e with
                        | Raise _, Raise _ => 1
                        | _, _ => 0
                        end
                   else 0)%nat
    /\ count is_expect w
       = (if truthy (listener_value e) then 0
          else if has_expect_response e then 1 else 0)%nat
    /\ count is_read w
       = match PyStr.last_opt (filter is_candidate (arrived e)) with
         | Some _ => 1%nat
         | None => 0%nat
         end.
Proof.
  intros Hpage. unfold network_tier, network_tier_at, listener_value. rewrite Hpage.
  destruct (click_overview_exact e) as (w1 & E1 & L1 & T1 & S1 & X1 & R1).
  set (clicked := match click_text e, click_span e with
                  | Raise _, Raise _ => false
                  | _, _ => true
                  end) in *.
  set (matching_resps := filter is_candidate (arrived e)).
  destruct (read_last_exact matching_resps None) as (w2 & E2 & L2 & C2 & X2 & R2).
  set (lv := read_value matching_resps None) in *.
  assert (exists w3,
             (if negb (truthy lv) then expect_tier e clicked matching_resps lv else ret lv)
             = (w3, Ok lv)
             /\ count is_lifecycle w3 = 0%nat
             /\ count (is_click sel_span) w3 = 0%nat
             /\ count (is_click sel_text) w3
                = (if truthy lv then 0
                   else if has_expect_response e then if clicked then 0 else 1 else 0)%nat
             /\ count is_expect w3
                = (if truthy lv then 0 else if has_expect_response e then 1 else 0)%nat
             /\ count is_read w3 = 0%nat)
    as (w3 & E3 & L3 & S3 & T3 & X3 & R3).
  { destruct (truthy lv); cbn [negb].
    - exists []. repeat split; reflexivity.
    - apply expect_tier_exact. }
  exists (w1 ++ [WaitForTimeout 1400] ++ map listener_log matching_resps ++ w2 ++ w3).
  split.
  - change (PageOn "response"
              :: (w1 ++ [WaitForTimeout 1400] ++ map listener_log matching_resps ++ w2 ++ w3)
              ++ [PageOff "response"; PageClose])
      with ([PageOn "response"]
              ++ (w1 ++ [WaitForTimeout 1400] ++ map listener_log matching_resps ++ w2 ++ w3)
              ++ [PageOff "response"; PageClose]).
    eapply bind_returns; [reflexivity|].
    eapply try_finally_returns; [|apply cleanup_eq].
    eapply bind_returns; [exact E1|].
    eapply bind_returns; [reflexivity|].
    eapply bind_returns; [apply (deliver_eq (arrived e) [])|].
    eapply bind_returns; [exact E2|].
    exact E3.
  - rewrite !count_app, !count_listener by (intros ?; reflexivity).
    rewrite L1, L2, L3, T1, S1, X1, R1, !C2, X2, R2, S3, T3, X3, R3.
    unfold clicked. cbn.
    repeat split; try lia.
    all: destruct (click_text e), (click_span e), (truthy lv), (has_expect_response e);
      lia.
Qed.

Lemma chain_no_page_calls (e : Env) (wc : list Event) (content : string) :
  chain e wc content ->
  count is_browser_call wc = 0%nat /\ count is_lifecycle wc = 0%nat.
Proof.
  intros [s Hs Hn | pre post sel h Hn Esel Hpre Hsel Hh | Hn Hall];
    rewrite ?count_app, ?count_css by reflexivity; split; reflexivity.
Qed.

(** A run with a page: the listener is registered, the page is worked on,
    the listener is removed and the page closed, then the later tiers and
    the saving follow. *)
Lemma parse_with_page (urlparse_path : string -> string) (e : Env) :
  page e = true ->
  exists w wc content,
    chain e wc content
    /\ network_tier e
       = (PageOn "response" :: w ++ [PageOff "response"; PageClose],
          Ok (network_capture e))
    /\ trace (parse urlparse_path e)
       = PageOn "response"
           :: w ++ PageOff "response" :: PageClose
           :: wc ++ [Makedirs "overview";
                     WriteFile (filepath urlparse_path e) content;
                     Log INFO ("Saved overview HTML to " ++ filepath urlparse_path e)].
Proof.
  intros Hpage.
  destruct (parse_runs urlparse_path e) as (wn & wc & content & En & Bn & Hc & Ep).
  destruct (network_tier_exact e Hpage) as (w & Ew & _).
  rewrite Ew in En. injection En as <- Ev.
  exists w, wc, content. split; [exact Hc|]. split.
  - rewrite Ew. now rewrite Ev.
  - rewrite Ep. unfold trace, fst. cbn [app].
    rewrite <- app_assoc. reflexivity.
Qed.

(** X8: the listener keeps what was captured before and appends the
    candidates among the responses it is given, in their order of arrival,
    logging one line for each. *)
Theorem listener_appends_candidates (rs matching_resps : list Response) :
  outcome (deliver rs matching_resps) = Ok (matching_resps ++ filter is_candidate rs)
  /\ trace (deliver rs matching_resps) = map listener_log (filter is_candidate rs).
Proof.
  revert matching_resps. induction rs as [|r rs IH]; intros m.
  - simpl. now rewrite app_nil_r.
  - cbn [deliver filter]. unfold on_response.
    destruct (is_candidate r); cbn;
      destruct (IH (m ++ [r])) as [Ho Ht], (IH m) as [Ho' Ht'];
      unfold outcome, trace in *.
    + destruct (deliver rs (m ++ [r])) as [w res]. cbn in *. subst.
      now rewrite <- app_assoc.
    + destruct (deliver rs m) as [w res]. cbn in *. now subst.
Qed.

(** ** When the delay raises *)

Lemma network_tier_at_no_page (delay : result unit) (e : Env) :
  page e = false -> network_tier_at delay e = ([], Ok None).
Proof. intros Hpage. unfold network_tier_at. now rewrite Hpage. Qed.

(** With a page and a delay that raises, the tier clicks, waits, cleans up
    and raises. *)
Lemma network_tier_at_aborts (e : Env) (msg : string) :
  page e = true ->
  exists w clicked,
    click_overview e = (w, Ok clicked)
    /\ network_tier_at (Raise msg) e
       = (PageOn "response"
            :: w ++ [WaitForTimeout 1400; PageOff "response"; PageClose],
          Raise msg).
Proof.
  intros Hpage.
  destruct (click_overview_exact e) as (w & E & _).
  eexists w, _. split; [exact E|].
  unfold network_tier_at. rewrite Hpage, cleanup_eq, E. cbn.
  now rewrite <- app_assoc.
Qed.

Lemma parse_at_as_parse (urlparse_path : string -> string)
      (delay : result unit) (e : Env) :
  page e = false \/ delay = Ok tt ->
  parse_at urlparse_path delay e = parse urlparse_path e.
Proof.
  intros [Hpage | ->]; [|reflexivity].
  unfold parse, parse_at. now rewrite !network_tier_at_no_page.
Qed.

Lemma parse_at_aborts (urlparse_path : string -> string) (e : Env) (msg : string) :
  page e = true ->
  exists w clicked,
    click_overview e = (w, Ok clicked)
    /\ parse_at urlparse_path (Raise msg) e
       = (PageOn "response"
            :: w ++ [WaitForTimeout 1400; PageOff "response"; PageClose],
          Raise msg).
Proof.
  intros Hpage.
  destruct (network_tier_at_aborts e msg Hpage) as (w & clicked & E & En).
  exists w, clicked. split; [exact E|].
  unfold parse_at. rewrite En. reflexivity.
Qed.

(** A run that returns is a run of [parse]. *)
Lemma parse_at_completed (urlparse_path : string -> string)
      (delay : result unit) (e : Env) (items : list Item) :
  outcome (parse_at urlparse_path delay e) = Ok items ->
  parse_at urlparse_path delay e = parse urlparse_path e.
Proof.
  intros Hout. destruct (page e) eqn:Hpage.
  - destruct delay as [[]|msg]; [reflexivity|].
    destruct (parse_at_aborts urlparse_path e msg Hpage) as (w & c & _ & E).
    rewrite E in Hout. discriminate.
  - apply parse_at_as_parse. now left.
Qed.

(** ** The name of the file, against the path itself *)

Lemma split_app_slash (a b : string) :
  PyStr.split "/" (a ++ String "/" b) = PyStr.split "/" a ++ PyStr.split "/" b.
Proof.
  induction a as [|c a IH]; [reflexivity|].
  cbn [append PyStr.split]. rewrite IH.
  destruct (Ascii.eqb c "/"); [reflexivity|].
  pose proof (split_nonempty "/" a) as Hne.
  destruct (PyStr.split "/" a); [contradiction|reflexivity].
Qed.

Lemma split_slash_free_one (s : string) :
  slash_free s = true -> PyStr.split "/" s = [s].
Proof.
  unfold slash_free. induction s as [|c t IH]; [reflexivity|].
  cbn [PyStr.all_chars PyStr.split]. intros H.
  apply andb_prop in H as [Hc Ht].
  apply negb_true_iff in Hc. rewrite Hc, (IH Ht). reflexivity.
Qed.

Lemma split_slashes (k : nat) :
  PyStr.split "/" (slashes k) = repeat EmptyString (S k).
Proof. induction k as [|k IH]; [reflexivity|]. cbn [slashes PyStr.split]. now rewrite IH. Qed.

Lemma filter_repeat_empty (n : nat) :
  filter PyStr.nonempty (repeat EmptyString n) = [].
Proof. induction n; simpl; auto. Qed.

Lemma endswith_slash (pre : string) :
  PyStr.endswith pre "/" = true -> exists p, pre = (p ++ "/")%string.
Proof.
  induction pre as [|c t IH]; [discriminate|].
  cbn [PyStr.endswith]. intros H. apply orb_true_iff in H as [H|H].
  - apply String.eqb_eq in H. rewrite H. now exists EmptyString.
  - destruct (IH H) as (p & ->). now exists (String c p).
Qed.

Lemma last_segment_of (seg : string) (k : nat) :
  PyStr.nonempty seg = true -> slash_free seg = true ->
  filter PyStr.nonempty (PyStr.split "/" (seg ++ slashes k)) = [seg].
Proof.
  intros Hne Hfree. destruct k as [|k].
  - cbn [slashes]. rewrite string_app_nil_r, (split_slash_free_one seg Hfree).
    simpl. now rewrite Hne.
  - cbn [slashes]. rewrite split_app_slash, (split_slash_free_one seg Hfree), split_slashes.
    rewrite filter_app, filter_repeat_empty. simpl. now rewrite Hne.
Qed.

(** A non-empty, slash-free piece of the path that is followed by slashes
    only and preceded by nothing or by a slash is the last segment. *)
Lemma segments_end_with (urlparse_path : string -> string) (url pre seg : string) (k : nat) :
  urlparse_path url = (pre ++ seg ++ slashes k)%string ->
  pre = EmptyString \/ PyStr.endswith pre "/" = true ->
  PyStr.nonempty seg = true -> slash_free seg = true ->
  PyStr.last_opt (segments urlparse_path url) = Some seg.
Proof.
  intros Hpath Hpre Hne Hfree. unfold segments. rewrite Hpath.
  destruct Hpre as [->|Hpre].
  - cbn [append]. now rewrite last_segment_of.
  - destruct (endswith_slash pre Hpre) as (p & ->).
    rewrite string_app_assoc. cbn [append].
    rewrite split_app_slash, filter_app, last_segment_of by assumption.
    apply last_opt_snoc.
Qed.

Lemma segments_of_slashes (urlparse_path : string -> string) (url : string) (k : nat) :
  urlparse_path url = slashes k -> segments urlparse_path url = [].
Proof.
  intros Hpath. unfold segments.
  rewrite Hpath, split_slashes. apply filter_repeat_empty.
Qed.

(** C3: a run that completes has written one file and yields its path,
    which is [overview/], a name, an underscore, the decimal numeral of
    the integer clock reading, and [.html].  When the path of the page URL
    has a last non-empty segment (a non-empty, slash-free piece that only
    slashes follow and that nothing or a slash precedes), the name is that
    segment sanitised, or "product" if nothing of it is left; when the
    path is made of slashes only, the name is "product". *)
Theorem output_file_name (urlparse_path : string -> string)
        (delay : result unit) (e : Env) (items : list Item) :
  outcome (parse_at urlparse_path delay e) = Ok items ->
  exists name ts content,
    writes (trace (parse_at urlparse_path delay e))
    = [(("overview/" ++ name ++ "_" ++ ts ++ ".html")%string, content)]
    /\ items = [[("file", ("overview/" ++ name ++ "_" ++ ts ++ ".html")%string)]]
    /\ option_map Z.of_int (NilZero.int_of_string ts) = Some (clock e)
    /\ (forall pre seg k,
           urlparse_path (response_url e) = (pre ++ seg ++ slashes k)%string ->
           pre = EmptyString \/ PyStr.endswith pre "/" = true ->
           PyStr.nonempty seg = true -> slash_free seg = true ->
           name = if PyStr.nonempty (sanitize seg) then sanitize seg else "product")
    /\ (forall k, urlparse_path (response_url e) = slashes k -> name = "product").
Proof.
  intros Hout.
  pose proof (parse_at_completed urlparse_path delay e items Hout) as Ecomp.
  rewrite Ecomp in Hout |- *. clear Ecomp.
  destruct (parse_runs urlparse_path e) as (wn & wc & content & En & Bn & Hc & Ep).
  exists (safe urlparse_path (response_url e)), (PyStr.str_of_int (clock e)), content.
  split; [|split; [|split; [|split]]].
  - rewrite Ep. unfold trace, fst.
    apply (parse_writes urlparse_path e wn wc content Bn Hc).
  - rewrite Ep in Hout. unfold outcome, snd in Hout. now injection Hout as <-.
  - apply str_of_int_reads_back.
  - intros pre seg k Hpath Hpre Hne Hfree.
    unfold safe, slug.
    rewrite (segments_end_with urlparse_path _ pre seg k Hpath Hpre Hne Hfree).
    now destruct (PyStr.nonempty (sanitize seg)).
  - intros k Hpath. unfold safe, slug.
    now rewrite (segments_of_slashes urlparse_path _ k Hpath).
Qed.








(** X9: the value the network tier hands on is nothing without a page and
    otherwise what the listener step left: the text read from the last
    candidate, or nothing.  The wait for a further response never changes
    it.  When the delay of line 89 raises, the tier raises instead. *)
Theorem network_capture_closed_form (e : Env) :
  network_capture e = (if page e then listener_value e else None)
  /\ forall delay,
      outcome (network_tier_at delay e)
      = if page e then
          match delay with
          | Ok _ => Ok (listener_value e)
          | Raise msg => Raise msg
          end
        else Ok None.
Proof.
  assert (outcome (network_tier e) = Ok (if page e then listener_value e else None))
    as Hret.
  { destruct (page e) eqn:Hpage.
    - destruct (network_tier_exact e Hpage) as (w & Ew & _). now rewrite Ew.
    - unfold network_tier. now rewrite network_tier_at_no_page. }
  split.
  - unfold network_capture. now rewrite Hret.
  - intros delay. destruct (page e) eqn:Hpage.
    + destruct delay as [[]|msg]; [exact Hret|].
      destruct (network_tier_at_aborts e msg Hpage) as (w & c & _ & E). now rewrite E.
    + now rewrite network_tier_at_no_page.
Qed.

(** X10: without a page the run makes no call on the browser and saves
    what the selectors give, or the full page. *)
Theorem no_page_no_browser (urlparse_path : string -> string) (e : Env) :
  page e = false ->
  network_capture e = None
  /\ count is_browser_call (trace (parse urlparse_path e)) = 0%nat
  /\ writes (trace (parse urlparse_path e))
     = [(filepath urlparse_path e,
         match first_match e selectors_to_try with
         | Some sel => or_empty (css_get e sel)
         | None => response_text e
         end)].
Proof.
  intros Hpage.
  assert (network_tier e = ([], Ok None)) as Enet
      by (unfold network_tier, network_tier_at; now rewrite Hpage).
  assert (network_capture e = None) as Hcap
      by (unfold network_capture, outcome; now rewrite Enet).
  destruct (parse_runs urlparse_path e) as (wn & wc & content & En & Bn & Hc & Ep).
  rewrite Enet in En. injection En as <-.
  split; [exact Hcap|]. rewrite Ep. unfold trace, fst. split.
  - destruct (chain_no_page_calls e wc content Hc) as [Hb _].
    cbn [app]. rewrite count_app, Hb. reflexivity.
  - rewrite (parse_writes urlparse_path e [] wc content Bn Hc).
    rewrite (chain_content e wc content Hc).
    unfold priority_content. now rewrite Hcap.
Qed.


(** The counts of a run with a page are those of its network tier. *)
Lemma parse_counts_with_page (urlparse_path : string -> string) (e : Env)
      (p : Event -> bool) :
  page e = true ->
  p (PageOn "response") = false -> p (PageOff "response") = false ->
  p PageClose = false -> p (Makedirs "overview") = false ->
  (forall sel, p (CssGet sel) = false) -> (forall path c, p (WriteFile path c) = false) ->
  (forall lvl msg, p (Log lvl msg) = false) ->
  exists w,
    network_tier e
    = (PageOn "response" :: w ++ [PageOff "response"; PageClose], Ok (network_capture e))
    /\ count p (trace (parse urlparse_path e)) = count p w.
Proof.
  intros Hpage Hon Hoff Hclose Hmk Hcss Hwr Hlog.
  destruct (parse_with_page urlparse_path e Hpage) as (w & wc & content & Hc & En & Et).
  exists w. split; [exact En|]. rewrite Et.
  assert (count p wc = 0%nat) as Hwc.
  { destruct Hc as [s Hs Hn | pre post sel h Hn Esel Hpre Hsel Hh | Hn Hall];
      rewrite ?count_app, ?count_css by exact Hcss;
      rewrite ?count_cons, ?count_nil, ?Hcss, ?Hlog; reflexivity. }
  rewrite count_cons, count_app, !count_cons, count_app, !count_cons, count_nil.
  rewrite Hon, Hoff, Hclose, Hmk, Hwr, Hlog, Hwc. lia.
Qed.

Ltac page_counts urlparse_path e Hpage p w En Ep :=
  destruct (parse_counts_with_page urlparse_path e p Hpage)
    as (w & En & Ep); try reflexivity; try (intros; reflexivity).

(** X12: with a page, the tab title is clicked exactly when the click on
    the text selector failed; the text selector is clicked once, and a
    second time only if both clicks failed, the listener gave nothing and
    the page can wait for a response. *)
Theorem clicks_escalate (urlparse_path : string -> string) (e : Env) :
  page e = true ->
  let w := trace (parse urlparse_path e) in
  (forall u, click_text e = Ok u ->
             count (is_click sel_span) w = 0%nat /\ count (is_click sel_text) w = 1%nat)
  /\ (forall msg, click_text e = Raise msg -> count (is_click sel_span) w = 1%nat)
  /\ (forall msg u, click_text e = Raise msg -> click_span e = Ok u ->
                    count (is_click sel_text) w = 1%nat)
  /\ (1 <= count (is_click sel_text) w <= 2)%nat
  /\ (count (is_click sel_text) w = 2%nat ->
      (exists m1 m2, click_text e = Raise m1 /\ click_span e = Raise m2)
      /\ truthy (listener_value e) = false
      /\ has_expect_response e = true).
Proof.
  intros Hpage. cbv zeta.
  destruct (network_tier_exact e Hpage) as (w' & Ew & _ & Hs & Ht & _).
  page_counts urlparse_path e Hpage (is_click sel_span) ws Es Cs.
  page_counts urlparse_path e Hpage (is_click sel_text) wt Et Ct.
  rewrite Ew in Es, Et. injection Es as Es _. injection Et as Et _.
  apply app_inv_tail in Es, Et. subst ws wt.
  rewrite Cs, Ct, Hs, Ht.
  split; [|split; [|split; [|split]]].
  - intros u Hu. rewrite Hu.
    destruct (truthy (listener_value e)), (has_expect_response e); split; reflexivity.
  - intros msg Hm. now rewrite Hm.
  - intros msg u Hm Hu. rewrite Hm, Hu.
    destruct (truthy (listener_value e)), (has_expect_response e); reflexivity.
  - destruct (truthy (listener_value e)), (has_expect_response e),
      (click_text e), (click_span e); lia.
  - destruct (truthy (listener_value e)), (has_expect_response e),
      (click_text e) as [|m1], (click_span e) as [|m2]; intros H; try lia.
    split; [now exists m1, m2|]. now split.
Qed.

(** What the later tiers leave in the trace of a run. *)
Lemma parse_later_tiers (urlparse_path : string -> string) (e : Env) :
  exists wc content,
    chain e wc content
    /\ css_queries (trace (parse urlparse_path e)) = css_queries wc
    /\ count is_full_page (trace (parse urlparse_path e)) = count is_full_page wc
    /\ writes (trace (parse urlparse_path e)) = [(filepath urlparse_path e, content)].
Proof.
  destruct (parse_runs urlparse_path e) as (wn & wc & content & En & Bn & Hc & Ep).
  exists wc, content. split; [exact Hc|].
  rewrite Ep. unfold trace, fst.
  rewrite (parse_writes urlparse_path e wn wc content Bn Hc).
  destruct Bn. rewrite !css_queries_app, !count_app, in_css0, in_full0.
  cbn. rewrite app_nil_r. repeat split; lia.
Qed.

(** X13: a tier that succeeds shuts the later ones out: with a non-empty
    network capture no selector is queried and the full page is not
    taken; with a matching selector the full page is not taken. *)
Theorem success_shuts_later_tiers (urlparse_path : string -> string) (e : Env) :
  let w := trace (parse urlparse_path e) in
  (truthy (network_capture e) = true ->
   css_queries w = [] /\ count is_full_page w = 0%nat)
  /\ (forall sel, first_match e selectors_to_try = Some sel ->
                  count is_full_page w = 0%nat).
Proof.
  cbv zeta.
  destruct (parse_later_tiers urlparse_path e) as (wc & content & Hc & -> & -> & _).
  split.
  - intros Hn.
    destruct Hc as [s Hs Hs' | pre post sel h Hn' _ _ _ _ | Hn' _];
      [split; reflexivity | congruence | congruence].
  - intros sel Hf.
    destruct Hc as [s Hs Hs' | pre post sel' h Hn' _ _ _ _ | Hn' Hall].
    + reflexivity.
    + rewrite count_app, count_css by reflexivity. reflexivity.
    + rewrite (first_match_all_false e _ Hall) in Hf. discriminate.
Qed.

(** X14: the full page is taken exactly when the network tier gave nothing
    and no selector matched; then all five selectors were queried, in
    their order, and the text of the page is what is saved. *)
Theorem full_page_only_as_last_resort (urlparse_path : string -> string) (e : Env) :
  let w := trace (parse urlparse_path e) in
  (count is_full_page w = 1%nat
   <-> truthy (network_capture e) = false /\ first_match e selectors_to_try = None)
  /\ (count is_full_page w = 1%nat ->
      css_queries w = selectors_to_try
      /\ writes w = [(filepath urlparse_path e, response_text e)]).
Proof.
  cbv zeta.
  destruct (parse_later_tiers urlparse_path e) as (wc & content & Hc & -> & -> & ->).
  destruct Hc as [s Hs Hs' | pre post sel h Hn Esel Hpre Hsel Hh | Hn Hall].
  - rewrite count_nil. split; [split|]; try discriminate.
    intros [Hn _]. rewrite Hs in Hn. simpl in Hn. congruence.
  - rewrite count_app, count_css by reflexivity.
    rewrite !count_cons, count_nil. cbn [is_full_page Nat.add].
    split; [split|]; try discriminate.
    intros [_ Hf]. rewrite Esel, first_match_unique in Hf; auto; [discriminate|].
    now rewrite Hsel.
  - rewrite count_app, count_css, css_queries_app, css_queries_css by reflexivity.
    split; [split|].
    + intros _. split; [exact Hn|]. now apply first_match_all_false.
    + reflexivity.
    + intros _. split; [apply app_nil_r|reflexivity].
Qed.

(** X15: the file is empty only when the full page was taken and the text
    of the page is empty: a capture or a selector match that is saved is
    never empty. *)
Theorem empty_file_means_empty_page (urlparse_path : string -> string) (e : Env)
        (path : string) :
  writes (trace (parse urlparse_path e)) = [(path, EmptyString)] ->
  response_text e = EmptyString
  /\ truthy (network_capture e) = false
  /\ first_match e selectors_to_try = None.
Proof.
  destruct (parse_runs urlparse_path e) as (wn & wc & content & En & Bn & Hc & Ep).
  rewrite Ep. unfold trace, fst.
  rewrite (parse_writes urlparse_path e wn wc content Bn Hc).
  intros [= _ Hcontent]. subst content.
  inversion Hc as [s Hs Hs' | pre post sel h Hn Esel Hpre Hsel Hh | Hn Hall].
  - subst. discriminate.
  - subst. discriminate.
  - split; [congruence|]. split; [exact Hn|]. now apply first_match_all_false.
Qed.


(** X17: with a page, a non-empty text read from the last candidate ends
    the network tier: one body is read and no further response is waited
    for; otherwise a further response is waited for once if the page can
    do that, and not at all if it cannot. *)
Theorem capture_ends_network_tier (urlparse_path : string -> string) (e : Env) :
  page e = true ->
  let w := trace (parse urlparse_path e) in
  (truthy (listener_value e) = true ->
   count is_read w = 1%nat /\ count is_expect w = 0%nat
   /\ network_capture e = listener_value e)
  /\ (truthy (listener_value e) = false ->
      count is_expect w = if has_expect_response e then 1%nat else 0%nat).
Proof.
  intros Hpage. cbv zeta.
  destruct (network_tier_exact e Hpage) as (w' & Ew & _ & _ & _ & Hx & Hr).
  page_counts urlparse_path e Hpage is_expect wx Ex Cx.
  page_counts urlparse_path e Hpage is_read wr Er Cr.
  rewrite Ew in Ex, Er. injection Ex as Ex Hv. injection Er as Er _.
  apply app_inv_tail in Ex, Er. subst wx wr.
  rewrite Cx, Cr, Hx, Hr. split.
  - intros Ht. rewrite Ht in *. split; [|split; [reflexivity|now rewrite <- Hv]].
    unfold listener_value, read_value in Ht.
    destruct (PyStr.last_opt (filter is_candidate (arrived e))); [reflexivity|discriminate].
  - intros Hf. now rewrite Hf.
Qed.

(** * The further statements at concrete runs *)

Lemma clean_segment_at_product :
  PyStr.all_chars allowed "iphone-15-black-128-gb" = true
  /\ PyStr.startswith "iphone-15-black-128-gb" "_" = false
  /\ PyStr.endswith "iphone-15-black-128-gb" "_" = false
  /\ sanitize "iphone-15-black-128-gb" = "iphone-15-black-128-gb".
Proof.
  split; [reflexivity|]. split; [reflexivity|]. split; [reflexivity|].
  apply (clean_segment_unchanged "iphone-15-black-128-gb"); reflexivity.
Defined.

Lemma filename_seconds_at_product :
  _make_safe_filename PlainUrl.path 1700000000 Runs.product_url
  = _make_safe_filename PlainUrl.path 1700000000 Runs.product_url
  /\ 1700000000%Z = 1700000000%Z.
Proof.
  split; [reflexivity|].
  apply (filename_tells_seconds_apart PlainUrl.path Runs.product_url). reflexivity.
Defined.

Lemma slug_at_product :
  PyStr.last_opt (segments PlainUrl.path Runs.product_url) = Some "iphone-15-black-128-gb"
  /\ slug PlainUrl.path Runs.product_url = "iphone-15-black-128-gb"
  /\ segments PlainUrl.path "https://shop.unicornstore.in//" = []
  /\ slug PlainUrl.path "https://shop.unicornstore.in//" = "product".
Proof.
  split; [reflexivity|]. split.
  - apply (proj1 (slug_is_last_segment PlainUrl.path Runs.product_url)). reflexivity.
  - split; [reflexivity|].
    apply (proj2 (slug_is_last_segment PlainUrl.path "https://shop.unicornstore.in//")).
    reflexivity.
Defined.

Lemma no_page_at_pageless :
  page MoreRuns.pageless = false
  /\ count is_browser_call (trace (parse PlainUrl.path MoreRuns.pageless)) = 0%nat.
Proof.
  split; [reflexivity|].
  apply (no_page_no_browser PlainUrl.path MoreRuns.pageless). reflexivity.
Defined.


Lemma clicks_escalate_at_runs :
  page MoreRuns.direct = true
  /\ click_text MoreRuns.direct = Ok tt
  /\ count (is_click sel_span) (trace (parse PlainUrl.path MoreRuns.direct)) = 0%nat
  /\ page Runs.captured = true
  /\ click_text Runs.captured = Raise "Timeout 3000ms exceeded"
  /\ count (is_click sel_span) (trace (parse PlainUrl.path Runs.captured)) = 1%nat
  /\ click_span Runs.captured = Ok tt
  /\ count (is_click sel_text) (trace (parse PlainUrl.path Runs.captured)) = 1%nat
  /\ page Runs.degraded = true
  /\ count (is_click sel_text) (trace (parse PlainUrl.path Runs.degraded)) = 2%nat
  /\ has_expect_response Runs.degraded = true.
Proof.
  pose proof (clicks_escalate PlainUrl.path MoreRuns.direct eq_refl) as (Hd & _).
  pose proof (clicks_escalate PlainUrl.path Runs.captured eq_refl) as (_ & Hs & Ht & _).
  pose proof (clicks_escalate PlainUrl.path Runs.degraded eq_refl) as (_ & _ & _ & _ & H2).
  split; [reflexivity|]. split; [reflexivity|].
  split; [apply (Hd tt eq_refl)|].
  split; [reflexivity|]. split; [reflexivity|].
  split; [apply (Hs _ eq_refl)|].
  split; [reflexivity|].
  split; [apply (Ht _ tt eq_refl eq_refl)|].
  split; [reflexivity|]. split; [reflexivity|].
  apply (H2 eq_refl).
Defined.

Lemma later_tiers_shut_at_runs :
  truthy (network_capture Runs.captured) = true
  /\ css_queries (trace (parse PlainUrl.path Runs.captured)) = []
  /\ first_match MoreRuns.pageless selectors_to_try = Some "section#overview"
  /\ count is_full_page (trace (parse PlainUrl.path MoreRuns.pageless)) = 0%nat.
Proof.
  split; [reflexivity|]. split.
  - apply (proj1 (success_shuts_later_tiers PlainUrl.path Runs.captured)). reflexivity.
  - split; [reflexivity|].
    apply (proj2 (success_shuts_later_tiers PlainUrl.path MoreRuns.pageless)
                 "section#overview").
    reflexivity.
Defined.

Lemma full_page_at_bare :
  count is_full_page (trace (parse PlainUrl.path Runs.bare)) = 1%nat
  /\ css_queries (trace (parse PlainUrl.path Runs.bare)) = selectors_to_try
  /\ truthy (network_capture Runs.bare) = false.
Proof.
  split; [reflexivity|]. split.
  - apply (proj2 (full_page_only_as_last_resort PlainUrl.path Runs.bare)). reflexivity.
  - apply (proj1 (proj1 (full_page_only_as_last_resort PlainUrl.path Runs.bare))).
    reflexivity.
Defined.

Lemma empty_file_at_blank :
  writes (trace (parse PlainUrl.path MoreRuns.blank))
  = [("overview/iphone-15-black-128-gb_1700000000.html", "")]
  /\ response_text MoreRuns.blank = "".
Proof.
  split; [reflexivity|].
  apply (empty_file_means_empty_page PlainUrl.path MoreRuns.blank
           "overview/iphone-15-black-128-gb_1700000000.html").
  reflexivity.
Defined.

Lemma capture_ends_at_runs :
  page Runs.captured = true
  /\ truthy (listener_value Runs.captured) = true
  /\ count is_read (trace (parse PlainUrl.path Runs.captured)) = 1%nat
  /\ page Runs.degraded = true
  /\ truthy (listener_value Runs.degraded) = false
  /\ count is_expect (trace (parse PlainUrl.path Runs.degraded)) = 1%nat.
Proof.
  split; [reflexivity|]. split; [reflexivity|]. split.
  - apply (proj1 (capture_ends_network_tier PlainUrl.path Runs.captured eq_refl)).
    reflexivity.
  - split; [reflexivity|]. split; [reflexivity|].
    apply (proj2 (capture_ends_network_tier PlainUrl.path Runs.degraded eq_refl)).
    reflexivity.
Defined.

(** * Runs that do not end with a file *)

Example aborted_run :
  parse_at PlainUrl.path MoreRuns.page_gone Runs.captured
  = ([PageOn "response";
      Click sel_text 3000;
      Click sel_span 3000;
      WaitForTimeout 1400;
      PageOff "response";
      PageClose],
     Raise "Target page, context or browser has been closed").
Proof. reflexivity. Qed.



Lemma output_file_name_at_slashed :
  outcome (parse_at PlainUrl.path MoreRuns.page_gone MoreRuns.slashed)
  = Ok [[("file", "overview/iphone_2015_black_1700000123.html")]]
  /\ PlainUrl.path (response_url MoreRuns.slashed)
     = ("/product/" ++ "iphone%2015 (black)" ++ slashes 2)%string
  /\ exists name ts content,
      writes (trace (parse_at PlainUrl.path MoreRuns.page_gone MoreRuns.slashed))
      = [(("overview/" ++ name ++ "_" ++ ts ++ ".html")%string, content)]
      /\ name = "iphone_2015_black"
      /\ option_map Z.of_int (NilZero.int_of_string ts) = Some 1700000123%Z.
Proof.
  split; [reflexivity|]. split; [reflexivity|].
  destruct (output_file_name PlainUrl.path MoreRuns.page_gone MoreRuns.slashed _ eq_refl)
    as (name & ts & content & Hw & _ & Hts & Hseg & _).
  exists name, ts, content. split; [exact Hw|]. split; [|exact Hts].
  apply (Hseg "/product/" "iphone%2015 (black)" 2%nat); [reflexivity | now right | reflexivity | reflexivity].
Defined.



